(** * analyticsclient.course: the [Course] resource of the analytics API client

    A shallow embedding of [analyticsclient/course.py] (Python 2) together
    with the parts of the Python 2.7 runtime the module relies on:
    [str.format], [urllib.quote], [urllib.quote_plus], [urllib.urlencode]
    and the iteration order of a small [dict] with string keys.

    Python byte strings ([str]) are modelled by [string] (a list of 8-bit
    characters).  A Python argument that may be [None] or a string is a
    [pyval]. *)

From Stdlib Require Import String Ascii List ZArith NArith Lia Bool.
Import ListNotations.
Local Open Scope list_scope.
Local Open Scope string_scope.

(* ------------------------------------------------------------------ *)
(** ** Python values and strings *)

Module Py.

(** The arguments the endpoint methods receive: [None] or a byte string. *)
Inductive pyval : Type :=
| PNone
| PStr (s : string).

(** Truth value testing ([if x:], [not x]): [None] and the empty string are
    false, every other string is true. *)
Definition truthy (v : pyval) : bool :=
  match v with
  | PNone => false
  | PStr EmptyString => false
  | PStr (String _ _) => true
  end.

(** [str(v)], which is also what [format] renders for a [{n}] field. *)
Definition str (v : pyval) : string :=
  match v with
  | PNone => "None"
  | PStr s => s
  end.

(** Truth value of a [str]. *)
Definition nonempty (s : string) : bool :=
  match s with
  | EmptyString => false
  | String _ _ => true
  end.

(** [c in s] for a one-character [c]. *)
Fixpoint char_in (c : ascii) (s : string) : bool :=
  match s with
  | EmptyString => false
  | String d r => Ascii.eqb c d || char_in c r
  end.

(** [all(c in chars for c in s)]. *)
Fixpoint all_in (chars s : string) : bool :=
  match s with
  | EmptyString => true
  | String c r => char_in c chars && all_in chars r
  end.

(** [''.join(map(f, s))]. *)
Fixpoint join_map (f : ascii -> string) (s : string) : string :=
  match s with
  | EmptyString => EmptyString
  | String c r => f c ++ join_map f r
  end.

(** [sep.join(l)]. *)
Fixpoint join (sep : string) (l : list string) : string :=
  match l with
  | [] => EmptyString
  | [x] => x
  | x :: r => x ++ sep ++ join sep r
  end.

(** [s.rstrip(chars)]: drop the longest suffix made of characters of
    [chars]. *)
Fixpoint rstrip (s chars : string) : string :=
  match s with
  | EmptyString => EmptyString
  | String c r =>
      match rstrip r chars with
      | EmptyString => if char_in c chars then EmptyString else String c EmptyString
      | String _ _ as r' => String c r'
      end
  end.

(** [s.replace(a, b)] for one-character [a] and [b]. *)
Fixpoint replace_char (a b : ascii) (s : string) : string :=
  match s with
  | EmptyString => EmptyString
  | String c r => String (if Ascii.eqb c a then b else c) (replace_char a b r)
  end.

(** Python exceptions: the class name and the message. *)
Record exn : Type := Exn { exn_class : string; exn_msg : string }.

(** Modelled from the spec: [analyticsclient.exceptions] is not among the
    source files.  [InvalidRequestError] is the error kind the spec names
    for a missing or bad parameter; [course.py] raises it with one
    message. *)
Definition InvalidRequestError (msg : string) : exn := Exn "InvalidRequestError" msg.
Definition IndexError (msg : string) : exn := Exn "IndexError" msg.
Definition ValueError (msg : string) : exn := Exn "ValueError" msg.
Definition UnicodeDecodeError (msg : string) : exn := Exn "UnicodeDecodeError" msg.

(** What a call produces: a value, or a raised exception. *)
Inductive outcome (A : Type) : Type :=
| Return (a : A)
| Raise (e : exn).
Arguments Return {A} a.
Arguments Raise {A} e.

(** *** [str.format] with positional fields [{0}] .. [{9}]

    The templates of [course.py] use only [{0}] and [{1}].  A doubled
    brace is a literal brace; a field whose index has no argument raises
    [IndexError]; any other brace raises [ValueError].  Arguments are
    inserted as they are (they are not scanned for fields). *)

Definition digit_of (c : ascii) : option nat :=
  let n := nat_of_ascii c in
  if (48 <=? n)%nat && (n <=? 57)%nat then Some (n - 48)%nat else None.

Definition prepend (p : string) (r : outcome string) : outcome string :=
  match r with
  | Return s => Return (p ++ s)
  | Raise x => Raise x
  end.

Fixpoint format (template : string) (args : list string) : outcome string :=
  match template with
  | EmptyString => Return EmptyString
  | String c r =>
      if Ascii.eqb c "{" then
        match r with
        | String d r1 =>
            if Ascii.eqb d "{" then prepend "{" (format r1 args)
            else
              match r1 with
              | String e r2 =>
                  match digit_of d, Ascii.eqb e "}" with
                  | Some i, true =>
                      match nth_error args i with
                      | Some a => prepend a (format r2 args)
                      | None => Raise (IndexError "tuple index out of range")
                      end
                  | _, _ => Raise (ValueError "unsupported replacement field")
                  end
              | EmptyString => Raise (ValueError "unmatched '{' in format")
              end
        | EmptyString => Raise (ValueError "Single '{' encountered in format string")
        end
      else if Ascii.eqb c "}" then
        match r with
        | String d r1 =>
            if Ascii.eqb d "}" then prepend "}" (format r1 args)
            else Raise (ValueError "Single '}' encountered in format string")
        | EmptyString => Raise (ValueError "Single '}' encountered in format string")
        end
      else prepend (String c EmptyString) (format r args)
  end.

End Py.

(* ------------------------------------------------------------------ *)
(** ** urllib (Python 2.7): [quote], [quote_plus] *)

Module Urllib.
Import Py.

(** [always_safe]: letters, digits and [_.-].  Python 2.7 does not list
    the tilde here. *)
Definition always_safe : string :=
  "ABCDEFGHIJKLMNOPQRSTUVWXYZabcdefghijklmnopqrstuvwxyz0123456789_.-".

Definition hex_digit (n : N) : ascii :=
  match get (N.to_nat n) "0123456789ABCDEF" with
  | Some c => c
  | None => "0"%char
  end.

(** ['%{:02X}'.format(i)]. *)
Definition percent_hex (c : ascii) : string :=
  let i := N_of_ascii c in
  String "%" (String (hex_digit (i / 16)) (String (hex_digit (i mod 16)) EmptyString)).

(** [_safe_map[c]]: the character itself when it is ASCII and in
    [always_safe], its percent escape otherwise. *)
Definition safe_map (c : ascii) : string :=
  if (N_of_ascii c <? 128)%N && char_in c always_safe
  then String c EmptyString
  else percent_hex c.

(** The quoter of [quote(s, safe)]: [_safe_map] updated with
    [(c, c) for c in safe]. *)
Definition quoter (safe : string) (c : ascii) : string :=
  if char_in c safe then String c EmptyString else safe_map c.

(** [urllib.quote(s, safe)], with its two fast paths. *)
Definition quote (s safe : string) : string :=
  if negb (nonempty s) then s
  else if negb (nonempty (rstrip s (always_safe ++ safe))) then s
  else join_map (quoter safe) s.

(** [urllib.quote_plus(s)] ([safe=''] as [urlencode] calls it). *)
Definition quote_plus (s : string) : string :=
  if char_in " " s
  then replace_char " " "+" (quote s " ")
  else quote s EmptyString.

End Urllib.

(* ------------------------------------------------------------------ *)
(** ** The dict of CPython 2.7, for string keys

    [urlencode] walks [query.items()], and a Python 2 dict yields its
    items in the order of the slots of its hash table.  The model is the
    eight-slot table every dict starts with ([PyDict_MINSIZE]); CPython
    grows it when an insertion fills the sixth slot, so the model stands
    for dicts that receive at most five keys.  The dicts of [course.py]
    receive at most three.  Hash randomisation is off, as it is by default
    in Python 2.7. *)

Module Dict.

Definition wordsize : Z := 2 ^ 64.

(** [string_hash] of [stringobject.c] on a 64-bit [long], written on the
    unsigned representative of the value: [x = *p << 7], then
    [x = (1000003*x) ^ *p++] for each character, [x ^= len], and the
    result [-1] is replaced by [-2]. *)
Definition string_hash (s : string) : Z :=
  match s with
  | EmptyString => 0
  | String c _ =>
      let x0 := Z.shiftl (Z.of_N (N_of_ascii c)) 7 in
      let x1 :=
        fold_left
          (fun x p => Z.lxor ((1000003 * x) mod wordsize) (Z.of_N (N_of_ascii p)))
          (list_ascii_of_string s) x0 in
      let x2 := Z.lxor x1 (Z.of_nat (String.length s)) in
      if (x2 =? wordsize - 1)%Z then wordsize - 2 else x2
  end%Z.

Section Table.
Context {V : Type}.

(** A slot is empty or holds a key with its value. *)
Definition dict : Type := list (option (string * V)).

Definition mask : Z := 7.

(** [{}] *)
Definition empty : dict := repeat None 8.

Definition slot (t : dict) (i : Z) : option (string * V) :=
  nth (Z.to_nat (Z.land i mask)) t None.

(** The collision loop of [lookdict_string]:
    [i = (i << 2) + i + perturb + 1], then [perturb >>= PERTURB_SHIFT]. *)
Fixpoint probe (fuel : nat) (t : dict) (key : string) (i perturb : Z) : option nat :=
  match fuel with
  | O => None
  | S fuel' =>
      let i' := ((Z.shiftl i 2 + i + perturb + 1) mod wordsize)%Z in
      match slot t i' with
      | None => Some (Z.to_nat (Z.land i' mask))
      | Some (k, _) =>
          if String.eqb k key then Some (Z.to_nat (Z.land i' mask))
          else probe fuel' t key i' (Z.shiftr perturb 5)
      end
  end.

(** [lookdict_string]: the slot that holds [key], or the free slot that
    will receive it. *)
Definition lookdict (t : dict) (key : string) : option nat :=
  let h := string_hash key in
  match slot t h with
  | None => Some (Z.to_nat (Z.land h mask))
  | Some (k, _) =>
      if String.eqb k key then Some (Z.to_nat (Z.land h mask))
      else probe 64 t key (Z.land h mask) h
  end.

Fixpoint store (t : dict) (n : nat) (e : string * V) : dict :=
  match t, n with
  | [], _ => []
  | _ :: r, O => Some e :: r
  | x :: r, S n' => x :: store r n' e
  end.

(** [d[key] = value] *)
Definition setitem (t : dict) (key : string) (value : V) : dict :=
  match lookdict t key with
  | Some n => store t n (key, value)
  | None => t
  end.

(** [d.items()]: the filled slots, in table order. *)
Fixpoint items (t : dict) : list (string * V) :=
  match t with
  | [] => []
  | Some e :: r => e :: items r
  | None :: r => items r
  end.

End Table.
Arguments dict V : clear implicits.

End Dict.

(* ------------------------------------------------------------------ *)
(** ** [urllib.urlencode] *)

Module Urlencode.
Import Py Urllib.

(** [urlencode(query)] for a dict ([doseq=0]):
    [k = quote_plus(str(k)); v = quote_plus(str(v)); l.append(k + '=' + v)]
    for each item, then ['&'.join(l)]. *)
Definition urlencode_items (query : list (string * pyval)) : string :=
  join "&" (map (fun kv => quote_plus (fst kv) ++ "=" ++ quote_plus (str (snd kv))) query).

Definition urlencode (query : Dict.dict pyval) : string :=
  urlencode_items (Dict.items query).

End Urlencode.

(* ------------------------------------------------------------------ *)
(** ** Reading a query string back

    What the receiving side does with a query string, after
    [urlparse.parse_qsl] and [urllib.unquote] of Python 2.7.  The wrapper
    never calls these; they say what it means for a query string to carry
    a key with a value. *)

Module Urlparse.
Import Py.

Definition hex_value (c : ascii) : option N :=
  let n := N_of_ascii c in
  if (48 <=? n)%N && (n <=? 57)%N then Some (n - 48)%N
  else if (65 <=? n)%N && (n <=? 70)%N then Some (n - 55)%N
  else if (97 <=? n)%N && (n <=? 102)%N then Some (n - 87)%N
  else None.

(** [unquote(s)]: a percent sign followed by two hexadecimal digits is the
    character with that code; any other character stands for itself. *)
Fixpoint unquote (s : string) : string :=
  match s with
  | EmptyString => EmptyString
  | String c r =>
      if Ascii.eqb c "%" then
        match r with
        | String h (String l r') =>
            match hex_value h, hex_value l with
            | Some a, Some b => String (ascii_of_N (16 * a + b)) (unquote r')
            | _, _ => String c (unquote r)
            end
        | _ => String c (unquote r)
        end
      else String c (unquote r)
  end.

(** [unquote(s.replace('+', ' '))] *)
Definition unquote_plus (s : string) : string :=
  unquote (replace_char "+" " " s).

(** [s.split(sep)] for a one-character separator. *)
Fixpoint split (sep : ascii) (s : string) : list string :=
  match s with
  | EmptyString => [EmptyString]
  | String c r =>
      if Ascii.eqb c sep then EmptyString :: split sep r
      else
        match split sep r with
        | x :: xs => String c x :: xs
        | [] => [String c EmptyString]
        end
  end.

(** [s.split(sep, 1)] when [sep] occurs in [s]: the text before the first
    [sep] and the text after it. *)
Fixpoint split_first (sep : ascii) (s : string) : option (string * string) :=
  match s with
  | EmptyString => None
  | String c r =>
      if Ascii.eqb c sep then Some (EmptyString, r)
      else
        match split_first sep r with
        | Some (a, b) => Some (String c a, b)
        | None => None
        end
  end.

(** [parse_qsl(qs)] with its defaults: fields are separated by [&] or
    [;]; an empty field, a field without [=] and a field with an empty
    value are skipped. *)
Definition parse_field (name_value : string) : list (string * string) :=
  if negb (nonempty name_value) then []
  else
    match split_first "=" name_value with
    | None => []
    | Some (n, v) => if nonempty v then [(unquote_plus n, unquote_plus v)] else []
    end.

Definition parse_qsl (qs : string) : list (string * string) :=
  flat_map parse_field (flat_map (split ";") (split "&" qs)).

End Urlparse.

(* ------------------------------------------------------------------ *)
(** ** [analyticsclient.course.Course] *)

Module Course.
Import Py Urllib Urlencode.

(** Modelled from the spec: [analyticsclient.constants.data_format] is not
    among the source files.  The spec gives the data format as an
    enumerated value [{JSON, CSV}]; [course.py] only hands it on to
    [client.get]. *)
Inductive DataFormat : Type :=
| DF_JSON
| DF_CSV.

Section WithClient.

(** What [client.get] returns, and the state the collaborator keeps (the
    remote server, the connection, ...). *)
Context {Resp ClientState : Type}.

(** The HTTP collaborator, [analyticsclient.client.Client]: its [get] may
    return a response or raise, and may change its own state.  It holds no
    reference to the [Course] instances made for it, so the attributes of
    an instance are out of its reach. *)
Record Client : Type := {
  get : string -> DataFormat -> ClientState -> outcome Resp * ClientState
}.

(** The attributes of a [Course] instance; [__init__] assigns both. *)
Record Course : Type := {
  client : Client;
  course_id : string
}.

(** The state a method runs in: the attributes of [self], the state of
    the collaborator, the calls of [client.get] made so far (path and data
    format, oldest first) and the warnings issued so far (message and
    category). *)
Record world : Type := {
  self : Course;
  client_state : ClientState;
  get_calls : list (string * DataFormat);
  warnings_log : list (string * string)
}.

(** A method body: it reads and updates the [world] and returns or raises.
    What was done before an exception is raised stays done. *)
Definition M (A : Type) : Type := world -> outcome A * world.

Definition ret {A : Type} (a : A) : M A := fun w => (Return a, w).

Definition raise {A : Type} (e : exn) : M A := fun w => (Raise e, w).

Definition bind {A B : Type} (m : M A) (k : A -> M B) : M B :=
  fun w =>
    match m w with
    | (Return a, w') => k a w'
    | (Raise e, w') => (Raise e, w')
    end.

Definition lift {A : Type} (r : outcome A) : M A := fun w => (r, w).

(** [self.course_id] *)
Definition self_course_id : M string := fun w => (Return (course_id (self w)), w).

(** [self.client.get(path, data_format=data_format)] *)
Definition client_get (path : string) (data_format : DataFormat) : M Resp :=
  fun w =>
    let (r, s) := get (client (self w)) path data_format (client_state w) in
    (r, {| self := self w;
           client_state := s;
           get_calls := get_calls w ++ [(path, data_format)];
           warnings_log := warnings_log w |}).

(** [self.client = value] *)
Definition set_client (value : Client) : M unit :=
  fun w =>
    (Return tt, {| self := {| client := value; course_id := course_id (self w) |};
                   client_state := client_state w;
                   get_calls := get_calls w;
                   warnings_log := warnings_log w |}).

(** [self.course_id = value] *)
Definition set_course_id (value : string) : M unit :=
  fun w =>
    (Return tt, {| self := {| client := client (self w); course_id := value |};
                   client_state := client_state w;
                   get_calls := get_calls w;
                   warnings_log := warnings_log w |}).

(** [warnings.warn(message, category)], with the warning filters at their
    default action (a warning is recorded or dropped, never raised). *)
Definition warn (message category : string) : M unit :=
  fun w =>
    (Return tt, {| self := self w;
                   client_state := client_state w;
                   get_calls := get_calls w;
                   warnings_log := warnings_log w ++ [(message, category)] |}).

Local Notation "x <- m ;; k" := (bind m (fun x => k))
  (at level 61, m at next level, right associativity).
Local Notation "m ;;; k" := (bind m (fun _ => k))
  (at level 61, right associativity).

(** [unicode(s)] of a byte string: the ASCII codec, which refuses a byte
    above 127. *)
Fixpoint is_ascii (s : string) : bool :=
  match s with
  | EmptyString => true
  | String c r => (N_of_ascii c <? 128)%N && is_ascii r
  end.

Definition unicode (s : string) : outcome string :=
  if is_ascii s then Return s
  else Raise (UnicodeDecodeError "'ascii' codec can't decode byte").

(** [Course.__init__(self, client, course_id)] *)
Definition __init__ (client : Client) (course_id : string) : M unit :=
  set_client client ;;;
  u <- lift (unicode course_id) ;;
  set_course_id u.

(** The endpoint methods take their arguments as the body sees them,
    defaults filled in: an omitted [demographic], [start_date] or
    [end_date] is [None], an omitted [data_format] is [DF.JSON], and an
    omitted [activity_type] is [AT.ANY], a non-empty constant of
    [analyticsclient.constants.activity_type], which is not among the
    source files. *)

(** [Course.enrollment] *)
Definition enrollment (demographic start_date end_date : pyval)
    (data_format : DataFormat) : M Resp :=
  cid <- self_course_id ;;
  path <- lift (format "courses/{0}/enrollment/" [cid]) ;;
  path <- (if truthy demographic
           then seg <- lift (format "{0}/" [str demographic]) ;; ret (path ++ seg)
           else ret path) ;;
  let params := Dict.empty in
  let params := if truthy start_date
                then Dict.setitem params "start_date" start_date else params in
  let params := if truthy end_date
                then Dict.setitem params "end_date" end_date else params in
  let querystring := urlencode params in
  path <- (if nonempty querystring
           then q <- lift (format "?{0}" [querystring]) ;; ret (path ++ q)
           else ret path) ;;
  client_get path data_format.

(** [Course.activity] *)
Definition activity (activity_type start_date end_date : pyval)
    (data_format : DataFormat) : M Resp :=
  if negb (truthy activity_type)
  then raise (InvalidRequestError "activity_type cannot be None.")
  else
    let params := Dict.setitem Dict.empty "activity_type" activity_type in
    let params := if truthy start_date
                  then Dict.setitem params "start_date" start_date else params in
    let params := if truthy end_date
                  then Dict.setitem params "end_date" end_date else params in
    cid <- self_course_id ;;
    path <- lift (format "courses/{0}/activity/" [cid]) ;;
    let querystring := urlencode params in
    q <- lift (format "?{0}" [querystring]) ;;
    client_get (path ++ q) data_format.

(** [Course.recent_activity] *)
Definition recent_activity (activity_type : pyval) (data_format : DataFormat)
    : M Resp :=
  warn "recent_activity has been deprecated! Use activity instead."
       "DeprecationWarning" ;;;
  cid <- self_course_id ;;
  path <- lift (format "courses/{0}/recent_activity/?activity_type={1}"
                       [cid; str activity_type]) ;;
  client_get path data_format.

(** [Course.problems] *)
Definition problems (data_format : DataFormat) : M Resp :=
  cid <- self_course_id ;;
  path <- lift (format "courses/{0}/problems/" [cid]) ;;
  client_get path data_format.

(** [Course.video_settings] *)
Definition video_settings (data_format : DataFormat) : M Resp :=
  cid <- self_course_id ;;
  path <- lift (format "courses/{0}/videos/settings/" [cid]) ;;
  client_get path data_format.

(** [Course.video_summary] *)
Definition video_summary (video_id start_date end_date : pyval)
    (data_format : DataFormat) : M Resp :=
  cid <- self_course_id ;;
  path <- lift (format "courses/{0}/videos/{1}/summary/" [cid; str video_id]) ;;
  let params := Dict.empty in
  let params := if truthy start_date
                then Dict.setitem params "start_date" start_date else params in
  let params := if truthy end_date
                then Dict.setitem params "end_date" end_date else params in
  let querystring := urlencode params in
  path <- (if nonempty querystring
           then q <- lift (format "?{0}" [querystring]) ;; ret (path ++ q)
           else ret path) ;;
  client_get path data_format.

(** [Course.videos] *)
Definition videos (start_date end_date : pyval) (data_format : DataFormat)
    : M Resp :=
  cid <- self_course_id ;;
  path <- lift (format "courses/{0}/videos/" [cid]) ;;
  let params := Dict.empty in
  let params := if truthy start_date
                then Dict.setitem params "start_date" start_date else params in
  let params := if truthy end_date
                then Dict.setitem params "end_date" end_date else params in
  let querystring := urlencode params in
  path <- (if nonempty querystring
           then q <- lift (format "?{0}" [querystring]) ;; ret (path ++ q)
           else ret path) ;;
  client_get path data_format.

(** [Course.video_seek_times] *)
Definition video_seek_times (video_id start_date end_date : pyval)
    (data_format : DataFormat) : M Resp :=
  cid <- self_course_id ;;
  path <- lift (format "courses/{0}/videos/{1}/seek_times/" [cid; str video_id]) ;;
  let params := Dict.empty in
  let params := if truthy start_date
                then Dict.setitem params "start_date" start_date else params in
  let params := if truthy end_date
                then Dict.setitem params "end_date" end_date else params in
  let querystring := urlencode params in
  path <- (if nonempty querystring
           then q <- lift (format "?{0}" [querystring]) ;; ret (path ++ q)
           else ret path) ;;
  client_get path data_format.

(** [Course.on_campus_data] *)
Definition on_campus_data (start_date end_date : pyval) (data_format : DataFormat)
    : M Resp :=
  cid <- self_course_id ;;
  path <- lift (format "courses/{0}/on_campus_student_data/" [cid]) ;;
  let params := Dict.empty in
  let params := if truthy start_date
                then Dict.setitem params "start_date" start_date else params in
  let params := if truthy end_date
                then Dict.setitem params "end_date" end_date else params in
  let querystring := urlencode params in
  path <- (if nonempty querystring
           then q <- lift (format "?{0}" [querystring]) ;; ret (path ++ q)
           else ret path) ;;
  client_get path data_format.

(** *** Calls on an instance *)

(** One call of an endpoint method, with its arguments. *)
Inductive call : Type :=
| Enrollment (demographic start_date end_date : pyval) (data_format : DataFormat)
| Activity (activity_type start_date end_date : pyval) (data_format : DataFormat)
| RecentActivity (activity_type : pyval) (data_format : DataFormat)
| Problems (data_format : DataFormat)
| VideoSettings (data_format : DataFormat)
| VideoSummary (video_id start_date end_date : pyval) (data_format : DataFormat)
| Videos (start_date end_date : pyval) (data_format : DataFormat)
| VideoSeekTimes (video_id start_date end_date : pyval) (data_format : DataFormat)
| OnCampusData (start_date end_date : pyval) (data_format : DataFormat).

Definition invoke (c : call) : M Resp :=
  match c with
  | Enrollment d s e f => enrollment d s e f
  | Activity t s e f => activity t s e f
  | RecentActivity t f => recent_activity t f
  | Problems f => problems f
  | VideoSettings f => video_settings f
  | VideoSummary v s e f => video_summary v s e f
  | Videos s e f => videos s e f
  | VideoSeekTimes v s e f => video_seek_times v s e f
  | OnCampusData s e f => on_campus_data s e f
  end.

(** The data format a call asks for. *)
Definition call_data_format (c : call) : DataFormat :=
  match c with
  | Enrollment _ _ _ f | Activity _ _ _ f | RecentActivity _ f | Problems f
  | VideoSettings f | VideoSummary _ _ _ f | Videos _ _ f
  | VideoSeekTimes _ _ _ f | OnCampusData _ _ f => f
  end.

(** A caller that makes the calls of [cs] one after the other on the same
    instance, catching whatever each raises; the outcomes, first call
    first, and the final state. *)
Fixpoint run_calls (cs : list call) (w : world) : list (outcome Resp) * world :=
  match cs with
  | [] => ([], w)
  | c :: r =>
      let (o, w1) := invoke c w in
      let (os, w2) := run_calls r w1 in
      (o :: os, w2)
  end.

(** The requests a call sends from state [w]: what it adds to
    [get_calls]. *)
Definition requests (c : call) (w : world) : list (string * DataFormat) :=
  skipn (List.length (get_calls w)) (get_calls (snd (invoke c w))).

End WithClient.

Arguments Client : clear implicits.
Arguments Course : clear implicits.
Arguments world : clear implicits.
Arguments M : clear implicits.

End Course.

(* ------------------------------------------------------------------ *)
(** ** The paths the methods send, written out *)

Module Surface.
Import Py Urllib Urlencode Course.

(** The character-by-character reading of [quote_plus]. *)
Definition plus_quoter (c : ascii) : string :=
  if Ascii.eqb c " " then "+" else safe_map c.

(** What [urlencode] writes for one item. *)
Definition encoded_item (kv : string * pyval) : string :=
  quote_plus (fst kv) ++ "=" ++ quote_plus (str (snd kv)).

(** One field of a query string: [key=value], the value quoted. *)
Definition field (key : string) (value : pyval) : string :=
  key ++ "=" ++ quote_plus (str value).

(** The optional dates that were supplied, [start_date] first. *)
Definition date_params (start_date end_date : pyval) : list (string * pyval) :=
  (if truthy start_date then [("start_date", start_date)] else []) ++
  (if truthy end_date then [("end_date", end_date)] else []).

(** [[?start_date=D][&end_date=D]] *)
Definition dates_query (start_date end_date : pyval) : string :=
  match truthy start_date, truthy end_date with
  | false, false => EmptyString
  | true, false => "?" ++ field "start_date" start_date
  | false, true => "?" ++ field "end_date" end_date
  | true, true =>
      "?" ++ field "start_date" start_date ++ "&" ++ field "end_date" end_date
  end.

(** The query string of [activity], without its question mark: the dates
    that were supplied, then the activity type. *)
Definition activity_query (activity_type start_date end_date : pyval) : string :=
  (if truthy start_date then field "start_date" start_date ++ "&" else EmptyString) ++
  (if truthy end_date then field "end_date" end_date ++ "&" else EmptyString) ++
  field "activity_type" activity_type.

(** The path a call hands to [client.get] when [segment] is what stands
    for the course between [courses/] and the endpoint's name; [None] for
    the call that is refused before any request. *)
Definition sent_path (segment : string) (c : call) : option string :=
  match c with
  | Enrollment d s e _ =>
      Some ("courses/" ++ segment ++ "/enrollment/"
            ++ (if truthy d then str d ++ "/" else EmptyString) ++ dates_query s e)
  | Activity t s e _ =>
      if truthy t
      then Some ("courses/" ++ segment ++ "/activity/?" ++ activity_query t s e)
      else None
  | RecentActivity t _ =>
      Some ("courses/" ++ segment ++ "/recent_activity/?activity_type=" ++ str t)
  | Problems _ => Some ("courses/" ++ segment ++ "/problems/")
  | VideoSettings _ => Some ("courses/" ++ segment ++ "/videos/settings/")
  | VideoSummary v s e _ =>
      Some ("courses/" ++ segment ++ "/videos/" ++ str v ++ "/summary/"
            ++ dates_query s e)
  | Videos s e _ => Some ("courses/" ++ segment ++ "/videos/" ++ dates_query s e)
  | VideoSeekTimes v s e _ =>
      Some ("courses/" ++ segment ++ "/videos/" ++ str v ++ "/seek_times/"
            ++ dates_query s e)
  | OnCampusData s e _ =>
      Some ("courses/" ++ segment ++ "/on_campus_student_data/" ++ dates_query s e)
  end.

(** The state in which a call reaches [client.get]: [recent_activity]
    has issued its deprecation warning by then, the other methods have
    changed nothing. *)
Definition warned {Resp ClientState : Type} (c : call)
    (w : world Resp ClientState) : world Resp ClientState :=
  match c with
  | RecentActivity _ _ =>
      {| self := self w;
         client_state := client_state w;
         get_calls := get_calls w;
         warnings_log :=
           warnings_log w
           ++ [("recent_activity has been deprecated! Use activity instead.",
                "DeprecationWarning")] |}
  | _ => w
  end.

(** The characters of RFC 3986's unreserved set: letters, digits, hyphen,
    period, underscore and tilde. *)
Definition rfc3986_unreserved : string :=
  "ABCDEFGHIJKLMNOPQRSTUVWXYZabcdefghijklmnopqrstuvwxyz0123456789-._~".

(** The text after the first question mark of a path. *)
Definition query_of (path : string) : string :=
  match Urlparse.split_first "?" path with
  | Some (_, q) => q
  | None => EmptyString
  end.

(** [prefix p s] is [String.prefix]; the field of a query string that
    starts with [key=], if there is one. *)
Definition query_fragment (key : string) (query : string) : option string :=
  find (String.prefix (key ++ "=")) (Urlparse.split "&" query).

(** The [activity_type=...] field of the one request of [reqs]. *)
Definition activity_type_fragment (reqs : list (string * DataFormat))
    : option string :=
  match reqs with
  | [(path, _)] => query_fragment "activity_type" (query_of path)
  | _ => None
  end.

(** Call [c] from state [w] sends exactly the request whose path embeds
    [segment] for the course (and none when the call is refused). *)
Definition sends_with_segment {Resp ClientState : Type} (segment : string)
    (c : call) (w : world Resp ClientState) : Prop :=
  requests c w
  = match sent_path segment c with
    | Some p => [(p, call_data_format c)]
    | None => []
    end.

End Surface.

(* ------------------------------------------------------------------ *)
(** ** A collaborator to run the methods against *)

Module Demo.
Import Py Course.

(** Answers every request with its path and counts the requests. *)
Definition echo_client : Client string nat :=
  {| get := fun path _ n => (Return path, S n) |}.

(** Refuses every request. *)
Definition not_found_client : Client string nat :=
  {| get := fun path _ n => (Raise (Exn "NotFoundError" path), S n) |}.

(** A state in which nothing was requested or warned about yet, with
    the attributes of [c]. *)
Definition fresh {Resp ClientState : Type} (c : Course Resp ClientState)
    (s : ClientState) : world Resp ClientState :=
  {| self := c; client_state := s; get_calls := []; warnings_log := [] |}.

Definition demo_course : Course string nat :=
  {| client := echo_client; course_id := "edX/DemoX/Demo_Course" |}.

(** A course named by a course key, and one whose server is down. *)
Definition keyed_course : Course string nat :=
  {| client := echo_client; course_id := "course-v1:edX+DemoX+Demo_Course" |}.

Definition lost_course : Course string nat :=
  {| client := not_found_client; course_id := "not-a-course-id" |}.

(** The date the tests use, and the paths a call on [demo_course]
    requests. *)
Definition date : pyval := PStr "2014-01-01".

Definition sent (c : call) : list string :=
  map fst (requests c (fresh demo_course 0)).

End Demo.

(* ------------------------------------------------------------------ *)
(** ** Kinds of calls *)

Module Calls.
Import Py Course.

(** [None] in place of a false value. *)
Definition or_none (v : pyval) : pyval := if truthy v then v else PNone.

(** The call with [None] in place of each false optional argument
    ([demographic], [start_date], [end_date]); [activity_type] and
    [video_id] are left as they are. *)
Definition normalize (c : call) : call :=
  match c with
  | Enrollment d s e f => Enrollment (or_none d) (or_none s) (or_none e) f
  | Activity t s e f => Activity t (or_none s) (or_none e) f
  | RecentActivity t f => RecentActivity t f
  | Problems f => Problems f
  | VideoSettings f => VideoSettings f
  | VideoSummary v s e f => VideoSummary v (or_none s) (or_none e) f
  | Videos s e f => Videos (or_none s) (or_none e) f
  | VideoSeekTimes v s e f => VideoSeekTimes v (or_none s) (or_none e) f
  | OnCampusData s e f => OnCampusData (or_none s) (or_none e) f
  end.

(** The calls [activity] refuses. *)
Definition rejected (c : call) : bool :=
  match c with
  | Activity t _ _ _ => negb (truthy t)
  | _ => false
  end.

Definition is_recent_activity (c : call) : bool :=
  match c with
  | RecentActivity _ _ => true
  | _ => false
  end.

(** The warning of [recent_activity]. *)
Definition deprecation_notice : string * string :=
  ("recent_activity has been deprecated! Use activity instead.",
   "DeprecationWarning").

(** The first path segment after the course: the four video methods
    share [videos/]. *)
Inductive endpoint : Type :=
| EEnrollment
| EActivity
| ERecentActivity
| EProblems
| EVideos
| EOnCampusStudentData.

Definition endpoint_of (c : call) : endpoint :=
  match c with
  | Enrollment _ _ _ _ => EEnrollment
  | Activity _ _ _ _ => EActivity
  | RecentActivity _ _ => ERecentActivity
  | Problems _ => EProblems
  | VideoSettings _ | VideoSummary _ _ _ _ | Videos _ _ _
  | VideoSeekTimes _ _ _ _ => EVideos
  | OnCampusData _ _ _ => EOnCampusStudentData
  end.

Definition endpoint_name (e : endpoint) : string :=
  match e with
  | EEnrollment => "enrollment/"
  | EActivity => "activity/"
  | ERecentActivity => "recent_activity/"
  | EProblems => "problems/"
  | EVideos => "videos/"
  | EOnCampusStudentData => "on_campus_student_data/"
  end.

(** The path of a call up to its query string: the course, the endpoint
    and the [demographic] or [video_id] written into it. *)
Definition base_path (segment : string) (c : call) : string :=
  match c with
  | Enrollment d _ _ _ =>
      "courses/" ++ segment ++ "/enrollment/"
      ++ (if truthy d then str d ++ "/" else EmptyString)
  | Activity _ _ _ _ => "courses/" ++ segment ++ "/activity/"
  | RecentActivity _ _ => "courses/" ++ segment ++ "/recent_activity/"
  | Problems _ => "courses/" ++ segment ++ "/problems/"
  | VideoSettings _ => "courses/" ++ segment ++ "/videos/settings/"
  | VideoSummary v _ _ _ =>
      "courses/" ++ segment ++ "/videos/" ++ str v ++ "/summary/"
  | Videos _ _ _ => "courses/" ++ segment ++ "/videos/"
  | VideoSeekTimes v _ _ _ =>
      "courses/" ++ segment ++ "/videos/" ++ str v ++ "/seek_times/"
  | OnCampusData _ _ _ => "courses/" ++ segment ++ "/on_campus_student_data/"
  end.

(** The characters a query string written by [urlencode] is made of:
    those of [always_safe], the percent and plus signs of quoting, and the
    separators. *)
Definition query_alphabet : string := Urllib.always_safe ++ "%+=&?".

(** The supplied dates as the receiving side reads them: key and text. *)
Definition supplied_dates (start_date end_date : pyval) : list (string * string) :=
  map (fun kv => (fst kv, str (snd kv)))
      (Surface.date_params start_date end_date).

Section WithClient.
Context {Resp ClientState : Type}.

(** What the collaborator's state becomes when it serves the requests of
    [reqs], first to last. *)
Definition serve (cl : Client Resp ClientState)
    (reqs : list (string * DataFormat)) (s : ClientState) : ClientState :=
  fold_left (fun st pf => snd (get cl (fst pf) (snd pf) st)) reqs s.

End WithClient.

End Calls.

(* ------------------------------------------------------------------ *)
(** ** Facts about strings and quoting *)

Module StringFacts.
Import Py Urllib Urlencode Urlparse Surface.

(** A statement about every character, settled on the 256 of them. *)
Ltac each_char c :=
  destruct c as [[] [] [] [] [] [] [] []]; vm_compute;
  try reflexivity; try discriminate; auto.

Lemma append_nil_r (s : string) : s ++ "" = s.
Proof. induction s as [|c r IH]; simpl; [reflexivity | now rewrite IH]. Qed.

Lemma append_assoc (a b c : string) : (a ++ b) ++ c = a ++ b ++ c.
Proof. induction a as [|x r IH]; simpl; [reflexivity | now rewrite IH]. Qed.

Lemma char_in_app (c : ascii) (a b : string) :
  char_in c (a ++ b) = char_in c a || char_in c b.
Proof.
  induction a as [|x r IH]; simpl; [reflexivity|].
  rewrite IH. now rewrite orb_assoc.
Qed.

Lemma always_safe_is_ascii (c : ascii) :
  char_in c always_safe = true -> (N_of_ascii c <? 128)%N = true.
Proof. each_char c. Qed.

Lemma safe_map_safe (c : ascii) :
  char_in c always_safe = true -> safe_map c = String c "".
Proof.
  intros H. unfold safe_map.
  now rewrite (always_safe_is_ascii c H), H.
Qed.

Lemma quoter_listed (safe : string) (c : ascii) :
  char_in c (always_safe ++ safe) = true -> quoter safe c = String c "".
Proof.
  rewrite char_in_app. unfold quoter. intros H.
  destruct (char_in c safe); [reflexivity|].
  rewrite orb_false_r in H. now apply safe_map_safe.
Qed.

Lemma rstrip_empty (s chars : string) :
  rstrip s chars = "" -> all_in chars s = true.
Proof.
  induction s as [|c r IH]; simpl; [reflexivity|].
  destruct (rstrip r chars) eqn:E.
  - destruct (char_in c chars); [intros _; now rewrite IH | discriminate].
  - discriminate.
Qed.

Lemma join_map_listed (safe s : string) :
  all_in (always_safe ++ safe) s = true -> join_map (quoter safe) s = s.
Proof.
  induction s as [|c r IH]; simpl; [reflexivity|].
  intros H. apply andb_true_iff in H as [Hc Hr].
  now rewrite (quoter_listed safe c Hc), (IH Hr).
Qed.

(** The fast paths of [quote] return what the slow path would. *)
Lemma quote_join_map (s safe : string) :
  quote s safe = join_map (quoter safe) s.
Proof.
  unfold quote. destruct s as [|c r]; [reflexivity|].
  cbn [nonempty negb].
  destruct (rstrip (String c r) (always_safe ++ safe)) eqn:E; cbn [nonempty negb].
  - symmetry. apply join_map_listed. now apply rstrip_empty.
  - reflexivity.
Qed.

Lemma replace_char_app (a b : ascii) (x y : string) :
  replace_char a b (x ++ y) = replace_char a b x ++ replace_char a b y.
Proof. induction x as [|c r IH]; simpl; [reflexivity | now rewrite IH]. Qed.

Lemma replace_quoter_space (c : ascii) :
  replace_char " " "+" (quoter " " c) = plus_quoter c.
Proof. each_char c. Qed.

Lemma plus_quoter_no_space (c : ascii) :
  Ascii.eqb c " " = false -> plus_quoter c = quoter "" c.
Proof. unfold plus_quoter, quoter. intros ->. reflexivity. Qed.

Lemma join_map_ext_in (f g : ascii -> string) (avoid : ascii) (s : string) :
  (forall c, Ascii.eqb avoid c = false -> f c = g c) ->
  char_in avoid s = false -> join_map f s = join_map g s.
Proof.
  intros Hfg. induction s as [|c r IH]; simpl; [reflexivity|].
  intros H. apply orb_false_iff in H as [Hc Hr].
  now rewrite (Hfg c Hc), (IH Hr).
Qed.

(** [quote_plus] maps each character on its own: a space to a plus sign,
    a character of [always_safe] to itself, any other to its escape. *)
Lemma quote_plus_join_map (s : string) :
  quote_plus s = join_map plus_quoter s.
Proof.
  unfold quote_plus. destruct (char_in " " s) eqn:E.
  - rewrite quote_join_map. clear E.
    induction s as [|c r IH]; simpl; [reflexivity|].
    now rewrite replace_char_app, replace_quoter_space, IH.
  - rewrite quote_join_map. symmetry.
    apply (join_map_ext_in _ _ " "); [|exact E].
    intros c Hc. apply plus_quoter_no_space. now rewrite Ascii.eqb_sym.
Qed.

Lemma plus_quoter_safe (c : ascii) :
  char_in c always_safe = true -> plus_quoter c = String c "".
Proof. each_char c. Qed.

(** Text made of letters, digits and [_.-] is quoted to itself. *)
Lemma quote_plus_safe (s : string) :
  all_in always_safe s = true -> quote_plus s = s.
Proof.
  rewrite quote_plus_join_map.
  induction s as [|c r IH]; simpl; [reflexivity|].
  intros H. apply andb_true_iff in H as [Hc Hr].
  now rewrite (plus_quoter_safe c Hc), (IH Hr).
Qed.

Lemma plus_quoter_nonempty (c : ascii) : nonempty (plus_quoter c) = true.
Proof. each_char c. Qed.

Lemma nonempty_app_l (a b : string) : nonempty a = true -> nonempty (a ++ b) = true.
Proof. destruct a; [discriminate | reflexivity]. Qed.

Lemma quote_plus_nonempty (s : string) :
  nonempty s = true -> nonempty (quote_plus s) = true.
Proof.
  rewrite quote_plus_join_map. destruct s as [|c r]; [discriminate|].
  intros _. simpl. apply nonempty_app_l, plus_quoter_nonempty.
Qed.

(** A quoted string holds none of the separators of a query string. *)
Lemma plus_quoter_no_separator (c : ascii) :
  char_in "&" (plus_quoter c) = false /\
  char_in ";" (plus_quoter c) = false /\
  char_in "=" (plus_quoter c) = false.
Proof. each_char c. Qed.

Lemma quote_plus_no_separator (s : string) :
  char_in "&" (quote_plus s) = false /\
  char_in ";" (quote_plus s) = false /\
  char_in "=" (quote_plus s) = false.
Proof.
  rewrite quote_plus_join_map.
  induction s as [|c r (IH1 & IH2 & IH3)]; simpl; [auto|].
  destruct (plus_quoter_no_separator c) as (H1 & H2 & H3).
  rewrite !char_in_app, H1, H2, H3, IH1, IH2, IH3. auto.
Qed.

(** *** Decoding undoes quoting *)

Lemma unquote_plain (c : ascii) (r : string) :
  Ascii.eqb c "%" = false -> unquote (String c r) = String c (unquote r).
Proof. intros H. simpl. now rewrite H. Qed.

Lemma unquote_escape (h l : ascii) (a b : N) (r : string) :
  hex_value h = Some a -> hex_value l = Some b ->
  unquote (String "%" (String h (String l r)))
  = String (ascii_of_N (16 * a + b)) (unquote r).
Proof. intros Hh Hl. cbn [unquote]. rewrite Hh, Hl. reflexivity. Qed.

(** What a character is quoted to decodes to that character: a plain
    character or the plus sign in one step, an escape through its two
    hexadecimal digits. *)
Lemma unquote_plus_quoter (c : ascii) (r : string) :
  unquote (replace_char "+" " " (plus_quoter c) ++ r) = String c (unquote r).
Proof.
  destruct c as [[] [] [] [] [] [] [] []];
    match goal with
    | |- unquote (?X ++ r) = _ =>
        let X' := eval vm_compute in X in change X with X'
    end;
    cbn [append];
    first [ apply unquote_plain; reflexivity
          | erewrite unquote_escape by (vm_compute; reflexivity); reflexivity ].
Qed.

Theorem unquote_plus_quote_plus (s : string) :
  unquote_plus (quote_plus s) = s.
Proof.
  unfold unquote_plus. rewrite quote_plus_join_map.
  induction s as [|c r IH]; simpl; [reflexivity|].
  now rewrite replace_char_app, unquote_plus_quoter, IH.
Qed.

(** *** Which strings are quoted to themselves *)

Lemma length_app (a b : string) :
  String.length (a ++ b) = String.length a + String.length b.
Proof. induction a as [|c r IH]; simpl; [reflexivity | now rewrite IH]. Qed.

(** A character is quoted to itself (it is in [always_safe]), to another
    single character (the space), or to a three-character escape. *)
Lemma plus_quoter_shape (c : ascii) :
  (plus_quoter c = String c "" /\ char_in c always_safe = true)
  \/ (exists d, plus_quoter c = String d "" /\ d <> c)
  \/ (exists h l, plus_quoter c = String "%" (String h (String l ""))).
Proof.
  destruct c as [[] [] [] [] [] [] [] []];
    first [ left; split; vm_compute; reflexivity
          | right; right; do 2 eexists; vm_compute; reflexivity
          | right; left; eexists; split; [vm_compute; reflexivity | discriminate] ].
Qed.

Lemma join_map_plus_quoter_length (s : string) :
  String.length s <= String.length (join_map plus_quoter s).
Proof.
  induction s as [|c r IH]; simpl; [lia|].
  rewrite length_app.
  destruct (plus_quoter_shape c) as [[-> _]|[(d & -> & _)|(h & l & ->)]];
    simpl; lia.
Qed.

(** [quote_plus] leaves a string as it is exactly when every character of
    it is a letter, a digit or one of [_.-]. *)
Theorem quote_plus_fixed_iff (s : string) :
  quote_plus s = s <-> all_in always_safe s = true.
Proof.
  split; [|apply quote_plus_safe].
  rewrite quote_plus_join_map.
  induction s as [|c r IH]; cbn [join_map all_in]; [reflexivity|].
  destruct (plus_quoter_shape c) as [[-> Hc]|[(d & -> & Hd)|(h & l & ->)]];
    cbn [append]; intros H.
  - injection H as H. rewrite Hc. now apply IH.
  - injection H as H1 _. now contradiction Hd.
  - exfalso. injection H as _ H2.
    pose proof (join_map_plus_quoter_length r) as L.
    rewrite <- H2 in L at 1. simpl in L. lia.
Qed.

(** *** Splitting at a separator *)

Lemma split_absent (sep : ascii) (s : string) :
  char_in sep s = false -> split sep s = [s].
Proof.
  induction s as [|c r IH]; simpl; [reflexivity|].
  intros H. apply orb_false_iff in H as [Hc Hr].
  rewrite Ascii.eqb_sym, Hc. now rewrite (IH Hr).
Qed.

Lemma split_app (sep : ascii) (a b : string) :
  char_in sep a = false ->
  split sep (a ++ String sep b) = a :: split sep b.
Proof.
  induction a as [|c r IH]; simpl.
  - intros _. now rewrite Ascii.eqb_refl.
  - intros H. apply orb_false_iff in H as [Hc Hr].
    rewrite Ascii.eqb_sym, Hc. now rewrite (IH Hr).
Qed.

Lemma split_first_app (sep : ascii) (a b : string) :
  char_in sep a = false ->
  split_first sep (a ++ String sep b) = Some (a, b).
Proof.
  induction a as [|c r IH]; simpl.
  - intros _. now rewrite Ascii.eqb_refl.
  - intros H. apply orb_false_iff in H as [Hc Hr].
    rewrite Ascii.eqb_sym, Hc. now rewrite (IH Hr).
Qed.

(** *** Reading back what [urlencode] wrote *)

Lemma encoded_item_no_separator (kv : string * pyval) :
  char_in "&" (encoded_item kv) = false /\ char_in ";" (encoded_item kv) = false.
Proof.
  unfold encoded_item.
  destruct (quote_plus_no_separator (fst kv)) as (K1 & K2 & _).
  destruct (quote_plus_no_separator (str (snd kv))) as (V1 & V2 & _).
  rewrite !char_in_app, K1, K2, V1, V2. now split.
Qed.

Lemma parse_field_encoded_item (kv : string * pyval) :
  nonempty (str (snd kv)) = true ->
  parse_field (encoded_item kv) = [(fst kv, str (snd kv))].
Proof.
  intros Hv. unfold parse_field, encoded_item.
  destruct (quote_plus_no_separator (fst kv)) as (_ & _ & K).
  change ("=" ++ quote_plus (str (snd kv)))
    with (String "=" (quote_plus (str (snd kv)))).
  rewrite (split_first_app "=" _ _ K).
  rewrite (quote_plus_nonempty _ Hv), !unquote_plus_quote_plus.
  destruct (quote_plus (fst kv)); reflexivity.
Qed.

Lemma urlencode_items_cons (kv kv' : string * pyval) (r : list (string * pyval)) :
  urlencode_items (kv :: kv' :: r)
  = encoded_item kv ++ String "&" (urlencode_items (kv' :: r)).
Proof. reflexivity. Qed.

(** A query string written by [urlencode] reads back as the items it was
    written from, in their order, when no value is empty. *)
Theorem parse_qsl_urlencode_items (items : list (string * pyval)) :
  Forall (fun kv => nonempty (str (snd kv)) = true) items ->
  parse_qsl (urlencode_items items) = map (fun kv => (fst kv, str (snd kv))) items.
Proof.
  induction items as [|kv r IH]; [reflexivity|].
  intros H. inversion H as [|? ? Hkv Hr]; subst.
  destruct (encoded_item_no_separator kv) as [Hamp Hsemi].
  destruct r as [|kv' r'].
  - change (urlencode_items [kv]) with (encoded_item kv).
    unfold parse_qsl. rewrite (split_absent _ _ Hamp). cbn [flat_map].
    rewrite (split_absent _ _ Hsemi). cbn [flat_map app].
    rewrite (parse_field_encoded_item kv Hkv). reflexivity.
  - rewrite urlencode_items_cons. unfold parse_qsl.
    rewrite (split_app _ _ _ Hamp). cbn [flat_map].
    rewrite (split_absent _ _ Hsemi). rewrite flat_map_app. cbn [flat_map].
    rewrite app_nil_r, (parse_field_encoded_item kv Hkv).
    specialize (IH Hr). unfold parse_qsl in IH. rewrite IH. reflexivity.
Qed.

End StringFacts.

(* ------------------------------------------------------------------ *)
(** ** What each method sends *)

Module CourseFacts.
Import Py Urllib Urlencode Urlparse Surface Course StringFacts.

Section WithClient.
Context {Resp ClientState : Type}.

(** *** Running a method body step by step *)

Lemma bind_ret {A B : Type} (a : A) (k : A -> M Resp ClientState B) :
  bind (ret a) k = k a.
Proof. reflexivity. Qed.

Lemma bind_lift_return {A B : Type} (a : A) (k : A -> M Resp ClientState B) :
  bind (lift (Return a)) k = k a.
Proof. reflexivity. Qed.

Lemma bind_self_course_id {B : Type} (k : string -> M Resp ClientState B)
    (w : world Resp ClientState) :
  bind self_course_id k w = k (course_id (self w)) w.
Proof. reflexivity. Qed.

Lemma bind_warn {B : Type} (m c : string) (k : unit -> M Resp ClientState B)
    (w : world Resp ClientState) :
  bind (warn m c) k w
  = k tt {| self := self w; client_state := client_state w;
            get_calls := get_calls w;
            warnings_log := warnings_log w ++ [(m, c)] |}.
Proof. reflexivity. Qed.

End WithClient.

(** *** The templates *)

Lemma format_enrollment (c : string) :
  format "courses/{0}/enrollment/" [c] = Return ("courses/" ++ c ++ "/enrollment/").
Proof. reflexivity. Qed.

Lemma format_segment (c : string) : format "{0}/" [c] = Return (c ++ "/").
Proof. reflexivity. Qed.

Lemma format_query (q : string) : format "?{0}" [q] = Return ("?" ++ q).
Proof. simpl. now rewrite append_nil_r. Qed.

Lemma format_activity (c : string) :
  format "courses/{0}/activity/" [c] = Return ("courses/" ++ c ++ "/activity/").
Proof. reflexivity. Qed.

Lemma format_recent_activity (c t : string) :
  format "courses/{0}/recent_activity/?activity_type={1}" [c; t]
  = Return ("courses/" ++ c ++ "/recent_activity/?activity_type=" ++ t).
Proof. simpl. now rewrite append_nil_r. Qed.

Lemma format_problems (c : string) :
  format "courses/{0}/problems/" [c] = Return ("courses/" ++ c ++ "/problems/").
Proof. reflexivity. Qed.

Lemma format_video_settings (c : string) :
  format "courses/{0}/videos/settings/" [c]
  = Return ("courses/" ++ c ++ "/videos/settings/").
Proof. reflexivity. Qed.

Lemma format_video_summary (c v : string) :
  format "courses/{0}/videos/{1}/summary/" [c; v]
  = Return ("courses/" ++ c ++ "/videos/" ++ v ++ "/summary/").
Proof. reflexivity. Qed.

Lemma format_videos (c : string) :
  format "courses/{0}/videos/" [c] = Return ("courses/" ++ c ++ "/videos/").
Proof. reflexivity. Qed.

Lemma format_video_seek_times (c v : string) :
  format "courses/{0}/videos/{1}/seek_times/" [c; v]
  = Return ("courses/" ++ c ++ "/videos/" ++ v ++ "/seek_times/").
Proof. reflexivity. Qed.

Lemma format_on_campus_data (c : string) :
  format "courses/{0}/on_campus_student_data/" [c]
  = Return ("courses/" ++ c ++ "/on_campus_student_data/").
Proof. reflexivity. Qed.

Ltac templates :=
  rewrite ?format_enrollment, ?format_segment, ?format_activity,
    ?format_recent_activity, ?format_problems, ?format_video_settings,
    ?format_video_summary, ?format_videos, ?format_video_seek_times,
    ?format_on_campus_data.

(** *** The order of the parameters

    [start_date], [end_date] and [activity_type] hash to the slots 5, 6
    and 7 of the table, whatever the order they are inserted in. *)

Lemma key_slots :
  Z.land (Dict.string_hash "start_date") 7 = 5%Z /\
  Z.land (Dict.string_hash "end_date") 7 = 6%Z /\
  Z.land (Dict.string_hash "activity_type") 7 = 7%Z.
Proof. vm_compute. auto. Qed.

Lemma items_dates (s e : pyval) :
  Dict.items
    (if truthy e
     then Dict.setitem
            (if truthy s then Dict.setitem Dict.empty "start_date" s
             else Dict.empty) "end_date" e
     else if truthy s then Dict.setitem Dict.empty "start_date" s
          else Dict.empty)
  = date_params s e.
Proof. unfold date_params. destruct (truthy s), (truthy e); vm_compute; reflexivity. Qed.

Lemma items_activity (t s e : pyval) :
  Dict.items
    (if truthy e
     then Dict.setitem
            (if truthy s
             then Dict.setitem (Dict.setitem Dict.empty "activity_type" t)
                    "start_date" s
             else Dict.setitem Dict.empty "activity_type" t) "end_date" e
     else if truthy s
          then Dict.setitem (Dict.setitem Dict.empty "activity_type" t)
                 "start_date" s
          else Dict.setitem Dict.empty "activity_type" t)
  = (date_params s e ++ [("activity_type", t)])%list.
Proof. unfold date_params. destruct (truthy s), (truthy e); vm_compute; reflexivity. Qed.

Lemma encoded_item_field (k : string) (v : pyval) :
  all_in always_safe k = true -> encoded_item (k, v) = field k v.
Proof.
  intros H. unfold encoded_item, field. cbn [fst snd].
  now rewrite (quote_plus_safe k H).
Qed.

Lemma encoded_start_date (v : pyval) :
  encoded_item ("start_date", v) = field "start_date" v.
Proof. now apply encoded_item_field. Qed.

Lemma encoded_end_date (v : pyval) :
  encoded_item ("end_date", v) = field "end_date" v.
Proof. now apply encoded_item_field. Qed.

Lemma encoded_activity_type (v : pyval) :
  encoded_item ("activity_type", v) = field "activity_type" v.
Proof. now apply encoded_item_field. Qed.

Lemma urlencode_one (kv : string * pyval) :
  urlencode_items [kv] = encoded_item kv.
Proof. reflexivity. Qed.

Ltac fields :=
  cbn [app];
  rewrite ?urlencode_items_cons, ?urlencode_one, ?encoded_start_date,
    ?encoded_end_date, ?encoded_activity_type;
  unfold field; rewrite ?append_assoc; cbn [append nonempty]; reflexivity.

Lemma urlencode_dates (s e : pyval) :
  (if nonempty (urlencode_items (date_params s e))
   then "?" ++ urlencode_items (date_params s e) else "")
  = dates_query s e.
Proof.
  unfold date_params, dates_query.
  destruct (truthy s), (truthy e); fields.
Qed.

Lemma urlencode_activity (t s e : pyval) :
  urlencode_items (date_params s e ++ [("activity_type", t)])%list
  = activity_query t s e.
Proof.
  unfold date_params, activity_query.
  destruct (truthy s), (truthy e); fields.
Qed.

(** *** The methods *)

Section Methods.
Context {Resp ClientState : Type}.

(** The block every method with optional dates ends with. *)
Lemma dated_request (p : string) (s e : pyval) (f : DataFormat)
    (w : world Resp ClientState) :
  bind
    (if nonempty (urlencode_items (date_params s e))
     then bind (lift (format "?{0}" [urlencode_items (date_params s e)]))
            (fun q => ret (p ++ q))
     else ret p)
    (fun path => client_get path f) w
  = client_get (p ++ dates_query s e) f w.
Proof.
  rewrite <- urlencode_dates.
  destruct (nonempty (urlencode_items (date_params s e))).
  - now rewrite format_query, bind_lift_return, bind_ret.
  - now rewrite bind_ret, append_nil_r.
Qed.

Ltac dated :=
  cbn beta zeta; unfold urlencode; rewrite items_dates, dated_request;
  rewrite ?append_assoc; reflexivity.

Lemma enrollment_sends (d s e : pyval) (f : DataFormat)
    (w : world Resp ClientState) :
  enrollment d s e f w
  = client_get ("courses/" ++ course_id (self w) ++ "/enrollment/"
                ++ (if truthy d then str d ++ "/" else "") ++ dates_query s e) f w.
Proof.
  unfold enrollment. rewrite bind_self_course_id. cbn beta.
  templates. rewrite bind_lift_return. cbn beta.
  destruct (truthy d).
  - templates. rewrite bind_lift_return, bind_ret. dated.
  - rewrite bind_ret. dated.
Qed.

Lemma activity_rejects (t s e : pyval) (f : DataFormat)
    (w : world Resp ClientState) :
  truthy t = false ->
  activity t s e f w
  = (Raise (InvalidRequestError "activity_type cannot be None."), w).
Proof. intros H. unfold activity. now rewrite H. Qed.

Lemma activity_sends (t s e : pyval) (f : DataFormat)
    (w : world Resp ClientState) :
  truthy t = true ->
  activity t s e f w
  = client_get ("courses/" ++ course_id (self w) ++ "/activity/?"
                ++ activity_query t s e) f w.
Proof.
  intros H. unfold activity. rewrite H. cbn [negb]. cbn beta zeta.
  rewrite bind_self_course_id. cbn beta.
  templates. rewrite bind_lift_return. cbn beta.
  unfold urlencode. rewrite items_activity, urlencode_activity.
  rewrite format_query, bind_lift_return. cbn beta.
  rewrite ?append_assoc. reflexivity.
Qed.

Lemma recent_activity_sends (t : pyval) (f : DataFormat)
    (w : world Resp ClientState) :
  recent_activity t f w
  = client_get ("courses/" ++ course_id (self w)
                ++ "/recent_activity/?activity_type=" ++ str t) f
      (warned (RecentActivity t f) w).
Proof.
  unfold recent_activity. rewrite bind_warn. cbn beta.
  rewrite bind_self_course_id. cbn beta. cbn [self].
  templates. now rewrite bind_lift_return.
Qed.

Lemma problems_sends (f : DataFormat) (w : world Resp ClientState) :
  problems f w = client_get ("courses/" ++ course_id (self w) ++ "/problems/") f w.
Proof.
  unfold problems. rewrite bind_self_course_id. cbn beta.
  templates. now rewrite bind_lift_return.
Qed.

Lemma video_settings_sends (f : DataFormat) (w : world Resp ClientState) :
  video_settings f w
  = client_get ("courses/" ++ course_id (self w) ++ "/videos/settings/") f w.
Proof.
  unfold video_settings. rewrite bind_self_course_id. cbn beta.
  templates. now rewrite bind_lift_return.
Qed.

Lemma video_summary_sends (v s e : pyval) (f : DataFormat)
    (w : world Resp ClientState) :
  video_summary v s e f w
  = client_get ("courses/" ++ course_id (self w) ++ "/videos/" ++ str v
                ++ "/summary/" ++ dates_query s e) f w.
Proof.
  unfold video_summary. rewrite bind_self_course_id. cbn beta.
  templates. rewrite bind_lift_return. dated.
Qed.

Lemma videos_sends (s e : pyval) (f : DataFormat) (w : world Resp ClientState) :
  videos s e f w
  = client_get ("courses/" ++ course_id (self w) ++ "/videos/"
                ++ dates_query s e) f w.
Proof.
  unfold videos. rewrite bind_self_course_id. cbn beta.
  templates. rewrite bind_lift_return. dated.
Qed.

Lemma video_seek_times_sends (v s e : pyval) (f : DataFormat)
    (w : world Resp ClientState) :
  video_seek_times v s e f w
  = client_get ("courses/" ++ course_id (self w) ++ "/videos/" ++ str v
                ++ "/seek_times/" ++ dates_query s e) f w.
Proof.
  unfold video_seek_times. rewrite bind_self_course_id. cbn beta.
  templates. rewrite bind_lift_return. dated.
Qed.

Lemma on_campus_data_sends (s e : pyval) (f : DataFormat)
    (w : world Resp ClientState) :
  on_campus_data s e f w
  = client_get ("courses/" ++ course_id (self w) ++ "/on_campus_student_data/"
                ++ dates_query s e) f w.
Proof.
  unfold on_campus_data. rewrite bind_self_course_id. cbn beta.
  templates. rewrite bind_lift_return. dated.
Qed.

(** Every call either is refused before any request, or hands the path
    of [sent_path] to [client.get]. *)
Lemma invoke_sends (c : call) (w : world Resp ClientState) :
  invoke c w
  = match sent_path (course_id (self w)) c with
    | Some p => client_get p (call_data_format c) (warned c w)
    | None => (Raise (InvalidRequestError "activity_type cannot be None."), w)
    end.
Proof.
  destruct c as [d s e f|t s e f|t f|f|f|v s e f|s e f|v s e f|s e f];
    cbn [invoke sent_path call_data_format warned].
  - apply enrollment_sends.
  - destruct (truthy t) eqn:Ht.
    + now apply activity_sends.
    + now apply activity_rejects.
  - apply recent_activity_sends.
  - apply problems_sends.
  - apply video_settings_sends.
  - apply video_summary_sends.
  - apply videos_sends.
  - apply video_seek_times_sends.
  - apply on_campus_data_sends.
Qed.

Lemma client_get_calls (p : string) (f : DataFormat) (w : world Resp ClientState) :
  get_calls (snd (client_get p f w)) = (get_calls w ++ [(p, f)])%list.
Proof. unfold client_get. now destruct (get _ _ _ _). Qed.

Lemma client_get_self (p : string) (f : DataFormat) (w : world Resp ClientState) :
  self (snd (client_get p f w)) = self w.
Proof. unfold client_get. now destruct (get _ _ _ _). Qed.

Lemma warned_self (c : call) (w : world Resp ClientState) :
  self (warned c w) = self w.
Proof. now destruct c. Qed.

Lemma warned_get_calls (c : call) (w : world Resp ClientState) :
  get_calls (warned c w) = get_calls w.
Proof. now destruct c. Qed.

Lemma warned_client_state (c : call) (w : world Resp ClientState) :
  client_state (warned c w) = client_state w.
Proof. now destruct c. Qed.

Lemma skipn_length_app {A : Type} (l r : list A) :
  skipn (List.length l) (l ++ r)%list = r.
Proof. induction l as [|x l IH]; [reflexivity | exact IH]. Qed.

(** The requests of a call: the one of [sent_path], or none. *)
Lemma requests_sends (c : call) (w : world Resp ClientState) :
  sends_with_segment (course_id (self w)) c w.
Proof.
  unfold sends_with_segment, requests. rewrite invoke_sends.
  destruct (sent_path (course_id (self w)) c) as [p|].
  - rewrite client_get_calls, warned_get_calls. apply skipn_length_app.
  - cbn [snd]. rewrite <- (app_nil_r (get_calls w)) at 2.
    apply skipn_length_app.
Qed.

(** No call assigns an attribute of [self]. *)
Lemma invoke_self (c : call) (w : world Resp ClientState) :
  self (snd (invoke c w)) = self w.
Proof.
  rewrite invoke_sends.
  destruct (sent_path (course_id (self w)) c) as [p|]; [|reflexivity].
  now rewrite client_get_self, warned_self.
Qed.

Lemma run_calls_self (cs : list call) (w : world Resp ClientState) :
  self (snd (run_calls cs w)) = self w.
Proof.
  revert w. induction cs as [|c r IH]; intros w; [reflexivity|].
  cbn [run_calls].
  destruct (invoke c w) as [o w1] eqn:E1.
  destruct (run_calls r w1) as [os w2] eqn:E2.
  cbn [snd].
  change w2 with (snd (os, w2)). rewrite <- E2, IH.
  change w1 with (snd (o, w1)). rewrite <- E1. apply invoke_self.
Qed.

(** What a call sends depends on the attributes of [self] alone. *)
Lemma requests_same_self (c : call) (w w' : world Resp ClientState) :
  self w' = self w -> requests c w' = requests c w.
Proof.
  intros H. rewrite (requests_sends c w'), (requests_sends c w). now rewrite H.
Qed.

End Methods.

End CourseFacts.

(* ------------------------------------------------------------------ *)
(** ** The contract of [Course] *)

Module CourseSpec.
Import Py Urllib Urlencode Urlparse Surface Course StringFacts CourseFacts.

Lemma truthy_nonempty (v : pyval) : truthy v = true -> nonempty (str v) = true.
Proof. destruct v as [|[|c r]]; [discriminate | discriminate | reflexivity]. Qed.

(** Fields written as [key=value], the keys being plain words, read back
    as the keys with the values. *)
Lemma parse_qsl_fields (items : list (string * pyval)) :
  Forall (fun kv => quote_plus (fst kv) = fst kv) items ->
  Forall (fun kv => truthy (snd kv) = true) items ->
  parse_qsl (join "&" (map (fun kv => field (fst kv) (snd kv)) items))
  = map (fun kv => (fst kv, str (snd kv))) items.
Proof.
  intros Hk Hv.
  rewrite <- parse_qsl_urlencode_items.
  - f_equal. unfold urlencode_items. f_equal.
    apply map_ext_in. intros kv Hin.
    rewrite Forall_forall in Hk. unfold field. now rewrite (Hk kv Hin).
  - rewrite Forall_forall in *. intros kv Hin. apply truthy_nonempty. auto.
Qed.

(** The three keys of [course.py], ready for [parse_qsl_fields]. *)
Ltac plain_keys :=
  repeat constructor; cbn [fst snd];
  first [ assumption | apply quote_plus_safe; reflexivity ].

(** Two texts that differ only in how their pieces are grouped. *)
Ltac same_text :=
  unfold field; rewrite ?append_assoc, ?append_nil_r; cbn [append]; reflexivity.

Section WithClient.
Context {Resp ClientState : Type}.

(** C1.  [enrollment] appends to [courses/{course_id}/enrollment/] (and
    the demographic segment, when one is given) a query string that holds
    exactly the supplied dates, [start_date] before [end_date], each value
    quoted, and appends nothing, not even a question mark, when neither
    is supplied.  Read back with [parse_qsl], the query string gives the
    supplied keys with the values as they were passed. *)
Theorem enrollment_query_string (demographic start_date end_date : pyval)
    (data_format : DataFormat) (w : world Resp ClientState) :
  let base :=
    "courses/" ++ course_id (self w) ++ "/enrollment/"
    ++ (if truthy demographic then str demographic ++ "/" else "") in
  let D1 := quote_plus (str start_date) in
  let D2 := quote_plus (str end_date) in
  let sent := enrollment demographic start_date end_date data_format w in
  match truthy start_date, truthy end_date with
  | false, false => sent = client_get base data_format w
  | true, false =>
      sent = client_get (base ++ "?start_date=" ++ D1) data_format w
      /\ parse_qsl ("start_date=" ++ D1) = [("start_date", str start_date)]
  | false, true =>
      sent = client_get (base ++ "?end_date=" ++ D2) data_format w
      /\ parse_qsl ("end_date=" ++ D2) = [("end_date", str end_date)]
  | true, true =>
      sent = client_get (base ++ "?start_date=" ++ D1 ++ "&end_date=" ++ D2)
               data_format w
      /\ parse_qsl ("start_date=" ++ D1 ++ "&end_date=" ++ D2)
         = [("start_date", str start_date); ("end_date", str end_date)]
  end.
Proof.
  intros base D1 D2 sent. subst sent base D1 D2.
  rewrite enrollment_sends. unfold dates_query.
  destruct (truthy start_date) eqn:Hs, (truthy end_date) eqn:He.
  - split; [same_text|].
    apply (parse_qsl_fields [("start_date", start_date); ("end_date", end_date)]);
      plain_keys.
  - split; [same_text|].
    apply (parse_qsl_fields [("start_date", start_date)]); plain_keys.
  - split; [same_text|].
    apply (parse_qsl_fields [("end_date", end_date)]); plain_keys.
  - same_text.
Qed.

(** C2.  [activity] called with [None] or with the empty string as its
    activity type raises [InvalidRequestError] and leaves the state as it
    was: no call of [client.get] is made, whatever the dates and the data
    format.  Called with any other activity type it raises nothing of its
    own: what it produces is what its one call of [client.get]
    produces. *)
Theorem activity_validation (activity_type start_date end_date : pyval)
    (data_format : DataFormat) (w : world Resp ClientState) :
  let result := activity activity_type start_date end_date data_format w in
  match activity_type with
  | PNone | PStr EmptyString =>
      result = (Raise (InvalidRequestError "activity_type cannot be None."), w)
      /\ get_calls (snd result) = get_calls w
      /\ client_state (snd result) = client_state w
  | PStr (String _ _) =>
      exists path,
        result = client_get path data_format w
        /\ get_calls (snd result) = (get_calls w ++ [(path, data_format)])%list
  end.
Proof.
  intros result. subst result.
  destruct activity_type as [|[|c r]].
  - now rewrite activity_rejects.
  - now rewrite activity_rejects.
  - rewrite activity_sends by reflexivity.
    eexists. split; [reflexivity | apply client_get_calls].
Qed.

(** C3.  For a non-empty activity type, [activity] hands [client.get] the
    path [courses/{course_id}/activity/?] followed by a query string that
    always holds the field [activity_type] with the quoted value, and
    [start_date] and [end_date] exactly when they are supplied.  Read back
    with [parse_qsl], the query string gives [activity_type] with the
    value as it was passed, and the supplied dates. *)
Theorem activity_query_string (activity_type start_date end_date : pyval)
    (data_format : DataFormat) (w : world Resp ClientState) :
  truthy activity_type = true ->
  let T := quote_plus (str activity_type) in
  let D1 := quote_plus (str start_date) in
  let D2 := quote_plus (str end_date) in
  let query :=
    match truthy start_date, truthy end_date with
    | false, false => "activity_type=" ++ T
    | true, false => "start_date=" ++ D1 ++ "&activity_type=" ++ T
    | false, true => "end_date=" ++ D2 ++ "&activity_type=" ++ T
    | true, true =>
        "start_date=" ++ D1 ++ "&end_date=" ++ D2 ++ "&activity_type=" ++ T
    end in
  activity activity_type start_date end_date data_format w
  = client_get ("courses/" ++ course_id (self w) ++ "/activity/?" ++ query)
      data_format w
  /\ parse_qsl query
     = (map (fun kv => (fst kv, str (snd kv))) (date_params start_date end_date)
        ++ [("activity_type", str activity_type)])%list
  /\ In ("activity_type=" ++ T) (split "&" query)
  /\ (In ("start_date=" ++ D1) (split "&" query) <-> truthy start_date = true)
  /\ (In ("end_date=" ++ D2) (split "&" query) <-> truthy end_date = true).
Proof.
  intros Ht T D1 D2 query.
  assert (Hq : query = activity_query activity_type start_date end_date).
  { subst query T D1 D2. unfold activity_query.
    destruct (truthy start_date), (truthy end_date); same_text. }
  split; [|split].
  - rewrite activity_sends by exact Ht. now rewrite Hq.
  - subst query T D1 D2. unfold date_params.
    destruct (truthy start_date) eqn:Hs, (truthy end_date) eqn:He; cbn [app map].
    + apply (parse_qsl_fields [("start_date", start_date); ("end_date", end_date);
                              ("activity_type", activity_type)]); plain_keys.
    + apply (parse_qsl_fields [("start_date", start_date);
                              ("activity_type", activity_type)]); plain_keys.
    + apply (parse_qsl_fields [("end_date", end_date);
                              ("activity_type", activity_type)]); plain_keys.
    + apply (parse_qsl_fields [("activity_type", activity_type)]); plain_keys.
  - clear Hq. subst query T.
    assert (S1 : forall v r, split "&" ("start_date=" ++ quote_plus v ++ String "&" r)
                             = ("start_date=" ++ quote_plus v) :: split "&" r).
    { intros v r. rewrite <- append_assoc. apply split_app.
      rewrite char_in_app. now destruct (quote_plus_no_separator v) as (-> & _). }
    assert (S2 : forall v r, split "&" ("end_date=" ++ quote_plus v ++ String "&" r)
                             = ("end_date=" ++ quote_plus v) :: split "&" r).
    { intros v r. rewrite <- append_assoc. apply split_app.
      rewrite char_in_app. now destruct (quote_plus_no_separator v) as (-> & _). }
    assert (S3 : split "&" ("activity_type=" ++ quote_plus (str activity_type))
                 = ["activity_type=" ++ quote_plus (str activity_type)]).
    { apply split_absent. rewrite char_in_app.
      now destruct (quote_plus_no_separator (str activity_type)) as (-> & _). }
    subst D1 D2.
    destruct (truthy start_date), (truthy end_date);
      change ("&end_date=" ++ ?x) with (String "&" ("end_date=" ++ x));
      change ("&activity_type=" ++ ?x) with (String "&" ("activity_type=" ++ x));
      rewrite ?S1, ?S2, S3; cbn [In]; intuition (discriminate || auto).
Qed.

Lemma init_self (cl : Client Resp ClientState) (cid : string)
    (w0 w : world Resp ClientState) :
  __init__ cl cid w0 = (Return tt, w) ->
  client (self w) = cl /\ course_id (self w) = cid.
Proof.
  unfold __init__, bind, set_client, set_course_id, lift, unicode.
  destruct (is_ascii cid); [|discriminate].
  intros H. injection H as <-. now split.
Qed.

(** C4.  On the instance constructed for the course
    [edX/DemoX/Demo_Course], [videos] with start and
    end date [2014-01-01] calls [client.get] with exactly the path
    [courses/edX/DemoX/Demo_Course/videos/?start_date=2014-01-01&end_date=2014-01-01]. *)
Theorem videos_example (cl : Client Resp ClientState) (data_format : DataFormat)
    (w0 w : world Resp ClientState) :
  __init__ cl "edX/DemoX/Demo_Course" w0 = (Return tt, w) ->
  let path :=
    "courses/edX/DemoX/Demo_Course/videos/?start_date=2014-01-01&end_date=2014-01-01" in
  videos (PStr "2014-01-01") (PStr "2014-01-01") data_format w
  = client_get path data_format w
  /\ requests (Videos (PStr "2014-01-01") (PStr "2014-01-01") data_format) w
     = [(path, data_format)].
Proof.
  intros H path. apply init_self in H as [_ Hid].
  assert (P : sent_path (course_id (self w))
                (Videos (PStr "2014-01-01") (PStr "2014-01-01") data_format)
              = Some path).
  { rewrite Hid. cbn [sent_path]. unfold dates_query, field. cbn [truthy str].
    rewrite (quote_plus_safe "2014-01-01") by reflexivity. reflexivity. }
  split.
  - change (videos (PStr "2014-01-01") (PStr "2014-01-01") data_format w)
      with (invoke (Videos (PStr "2014-01-01") (PStr "2014-01-01") data_format) w).
    rewrite invoke_sends, P. reflexivity.
  - pose proof (requests_sends
                  (Videos (PStr "2014-01-01") (PStr "2014-01-01") data_format) w) as R.
    unfold sends_with_segment in R. now rewrite P in R.
Qed.

Lemma sent_path_embeds (segment : string) (c : call) (p : string) :
  sent_path segment c = Some p ->
  exists rest, p = "courses/" ++ segment ++ "/" ++ rest.
Proof.
  destruct c as [d s e f|t s e f|t f|f|f|v s e f|s e f|v s e f|s e f];
    cbn [sent_path]; try destruct (truthy t); intros H;
    try discriminate H; injection H as <-; eexists; reflexivity.
Qed.

(** C5, as the code has it.  Every endpoint method embeds [course_id] in
    the path as it is, with no URL encoding: the one request of a call is
    the one of [sent_path] for the stored [course_id] itself, whose path
    starts with [courses/], the course id and a slash.  The embedded text
    is what URL encoding would give when the course id holds nothing but
    letters, digits, [_.-] and the slash. *)
Theorem course_id_embedded_verbatim (c : call) (w : world Resp ClientState) :
  sends_with_segment (course_id (self w)) c w
  /\ (forall p f, In (p, f) (requests c w) ->
      exists rest, p = "courses/" ++ course_id (self w) ++ "/" ++ rest)
  /\ (all_in (always_safe ++ "/") (course_id (self w)) = true ->
      quote (course_id (self w)) "/" = course_id (self w)).
Proof.
  split; [apply requests_sends|]. split.
  - intros p f. rewrite (requests_sends c w).
    destruct (sent_path (course_id (self w)) c) as [q|] eqn:E; cbn [In];
      [|contradiction].
    intros [H|[]]. injection H as <- _. now apply sent_path_embeds with (c := c).
  - intros H. rewrite quote_join_map. now apply join_map_listed.
Qed.

(** C6, as the code has it.  For every activity type, [recent_activity]
    calls [client.get] with exactly the path
    [courses/{course_id}/recent_activity/?activity_type=T], [T] being the
    text of the activity type as it was passed: [activity_type=] is always
    written and the method adds nothing after [T].  [T] is written
    unquoted, so it is only when [T] holds no field separator ([&] or [;])
    that the query string is sure to read back as no parameter but
    [activity_type] (and as none at all when [T] is empty, an empty value
    being skipped by the reader). *)
Theorem recent_activity_path (activity_type : pyval) (data_format : DataFormat)
    (w : world Resp ClientState) :
  let T := str activity_type in
  let path :=
    "courses/" ++ course_id (self w) ++ "/recent_activity/?activity_type=" ++ T in
  recent_activity activity_type data_format w
  = client_get path data_format (warned (RecentActivity activity_type data_format) w)
  /\ requests (RecentActivity activity_type data_format) w = [(path, data_format)]
  /\ (char_in "&" T = false -> char_in ";" T = false ->
      parse_qsl ("activity_type=" ++ T)
      = if nonempty T then [("activity_type", unquote_plus T)] else []).
Proof.
  intros T path. split; [apply recent_activity_sends|]. split.
  - apply (requests_sends (RecentActivity activity_type data_format) w).
  - intros Hamp Hsemi. unfold parse_qsl.
    rewrite split_absent by (rewrite char_in_app, Hamp; reflexivity).
    cbn [flat_map].
    rewrite split_absent by (rewrite char_in_app, Hsemi; reflexivity).
    cbn [flat_map app]. rewrite app_nil_r. unfold parse_field.
    change ("activity_type=" ++ T) with ("activity_type" ++ String "=" T).
    rewrite split_first_app by reflexivity.
    cbn [append nonempty negb].
    destruct (nonempty T); reflexivity.
Qed.

(** C7.  A call of an endpoint method that is not an [activity] call with
    a false activity type makes exactly one call of [client.get], with the
    data format it was given, and produces what that call produces: the
    value it returns, or the exception it raises, as it is.  The state of
    the collaborator is the one that call left. *)
Theorem endpoint_delegates_once (c : call) (w : world Resp ClientState) :
  (forall t s e f, c = Activity t s e f -> truthy t = true) ->
  exists path,
    let reply := get (client (self w)) path (call_data_format c) (client_state w) in
    fst (invoke c w) = fst reply
    /\ client_state (snd (invoke c w)) = snd reply
    /\ get_calls (snd (invoke c w))
       = (get_calls w ++ [(path, call_data_format c)])%list.
Proof.
  intros Hc. rewrite invoke_sends.
  destruct (sent_path (course_id (self w)) c) as [p|] eqn:E.
  - exists p. cbn zeta. unfold client_get.
    rewrite warned_self, warned_client_state, warned_get_calls.
    now destruct (get _ _ _ _).
  - exfalso. destruct c; cbn [sent_path] in E; try discriminate.
    rewrite (Hc _ _ _ _ eq_refl) in E. discriminate.
Qed.

(** C8.  No endpoint method assigns an attribute of the instance: after
    any sequence of calls, whether they returned or raised, [client] and
    [course_id] are what the constructor stored, and a call sends then
    what the same call would have sent right after construction. *)
Theorem instance_unchanged (cl : Client Resp ClientState) (cid : string)
    (cs : list call) (c : call) (w0 w : world Resp ClientState) :
  __init__ cl cid w0 = (Return tt, w) ->
  let w' := snd (run_calls cs w) in
  client (self w') = cl
  /\ course_id (self w') = cid
  /\ self (snd (invoke c w')) = self w
  /\ requests c w' = requests c w.
Proof.
  intros H w'. apply init_self in H as [Hcl Hid].
  assert (S : self w' = self w) by apply run_calls_self.
  rewrite S. repeat split; auto.
  - now rewrite invoke_self.
  - now apply requests_same_self.
Qed.

(** C9.  [recent_activity] does not check its activity type: called with
    [None] or with the empty string it raises nothing of its own and calls
    [client.get] once, with [None] rendered as the text [None] and the
    empty string as nothing, where [activity] raises. *)
Theorem recent_activity_no_validation (data_format : DataFormat)
    (w : world Resp ClientState) :
  let base := "courses/" ++ course_id (self w) ++ "/recent_activity/" in
  recent_activity PNone data_format w
  = client_get (base ++ "?activity_type=None") data_format
      (warned (RecentActivity PNone data_format) w)
  /\ recent_activity (PStr "") data_format w
     = client_get (base ++ "?activity_type=") data_format
         (warned (RecentActivity (PStr "") data_format) w)
  /\ requests (RecentActivity PNone data_format) w
     = [(base ++ "?activity_type=None", data_format)]
  /\ requests (RecentActivity (PStr "") data_format) w
     = [(base ++ "?activity_type=", data_format)]
  /\ requests (Activity PNone PNone PNone data_format) w = []
  /\ requests (Activity (PStr "") PNone PNone data_format) w = [].
Proof.
  intros base. subst base.
  rewrite !append_assoc. split; [|split; [|split; [|split; [|split]]]].
  - apply recent_activity_sends.
  - apply recent_activity_sends.
  - apply (requests_sends (RecentActivity PNone data_format) w).
  - apply (requests_sends (RecentActivity (PStr "") data_format) w).
  - apply (requests_sends (Activity PNone PNone PNone data_format) w).
  - apply (requests_sends (Activity (PStr "") PNone PNone data_format) w).
Qed.

Lemma append_inj_l (a x y : string) : a ++ x = a ++ y -> x = y.
Proof.
  induction a as [|c r IH]; simpl; [auto|]. intros H. injection H as H. auto.
Qed.

(** C10, as the code has it.  [activity] writes the activity type quoted
    by [quote_plus], [recent_activity] writes it as it was passed.  The
    two fields are the same text exactly when the activity type holds
    nothing but letters, digits and [_.-]; an ampersand, an equals sign
    and also a tilde are escaped by [activity] alone. *)
Theorem activity_type_quoting (T : string) (data_format : DataFormat)
    (w : world Resp ClientState) :
  T <> "" ->
  let cid := course_id (self w) in
  activity (PStr T) PNone PNone data_format w
  = client_get ("courses/" ++ cid ++ "/activity/?" ++ "activity_type=" ++ quote_plus T)
      data_format w
  /\ recent_activity (PStr T) data_format w
     = client_get ("courses/" ++ cid ++ "/recent_activity/?" ++ "activity_type=" ++ T)
         data_format (warned (RecentActivity (PStr T) data_format) w)
  /\ ("activity_type=" ++ quote_plus T = "activity_type=" ++ T
      <-> all_in always_safe T = true)
  /\ quote_plus "a&b" = "a%26b"
  /\ quote_plus "a=b" = "a%3Db"
  /\ quote_plus "~" = "%7E".
Proof.
  intros HT cid. subst cid. split; [|split; [|split]].
  - rewrite activity_sends by (destruct T; [contradiction | reflexivity]).
    unfold activity_query, field. cbn [truthy str]. same_text.
  - rewrite recent_activity_sends. cbn [str]. same_text.
  - rewrite <- quote_plus_fixed_iff. split.
    + apply append_inj_l.
    + now intros ->.
  - split; [|split]; vm_compute; reflexivity.
Qed.

End WithClient.

End CourseSpec.

(* ------------------------------------------------------------------ *)
(** ** The contract at work: runs against the collaborators of [Demo] *)

Module Runs.
Import Py Urllib Urlencode Urlparse Surface Course Demo CourseSpec.

(** C3 at [activity('any', start_date='2014-01-01')] on the demo course:
    the dict yields [start_date] before [activity_type]. *)
Lemma activity_query_string_witness :
  truthy (PStr "any") = true
  /\ activity (PStr "any") (PStr "2014-01-01") PNone DF_JSON (fresh demo_course 0)
     = client_get
         "courses/edX/DemoX/Demo_Course/activity/?start_date=2014-01-01&activity_type=any"
         DF_JSON (fresh demo_course 0).
Proof.
  split; [reflexivity|].
  exact (proj1 (activity_query_string (PStr "any") (PStr "2014-01-01") PNone
                  DF_JSON (fresh demo_course 0) eq_refl)).
Defined.

(** C4 on the instance the constructor builds. *)
Lemma videos_example_witness :
  __init__ echo_client "edX/DemoX/Demo_Course" (fresh lost_course 0)
  = (Return tt, fresh demo_course 0)
  /\ requests (Videos (PStr "2014-01-01") (PStr "2014-01-01") DF_JSON)
       (fresh demo_course 0)
     = [("courses/edX/DemoX/Demo_Course/videos/?start_date=2014-01-01&end_date=2014-01-01",
         DF_JSON)].
Proof.
  split; [reflexivity|].
  exact (proj2 (videos_example echo_client DF_JSON (fresh lost_course 0)
                  (fresh demo_course 0) eq_refl)).
Defined.

(** C7 at [problems()] against a server that answers 404: the error is
    what the caller gets. *)
Lemma endpoint_delegates_once_witness :
  (forall t s e f, Problems DF_JSON = Activity t s e f -> truthy t = true)
  /\ exists path,
       fst (invoke (Problems DF_JSON) (fresh lost_course 0))
       = fst (get not_found_client path DF_JSON 0)
       /\ client_state (snd (invoke (Problems DF_JSON) (fresh lost_course 0)))
          = snd (get not_found_client path DF_JSON 0)
       /\ get_calls (snd (invoke (Problems DF_JSON) (fresh lost_course 0)))
          = [(path, DF_JSON)].
Proof.
  assert (H : forall t s e f,
             Problems DF_JSON = Activity t s e f -> truthy t = true)
    by (intros t s e f E; discriminate E).
  split; [exact H|].
  exact (endpoint_delegates_once (Problems DF_JSON) (fresh lost_course 0) H).
Defined.

(** C8 after a refused call, a call that raises nothing and a deprecated
    call on the demo course. *)
Lemma instance_unchanged_witness :
  __init__ echo_client "edX/DemoX/Demo_Course" (fresh lost_course 0)
  = (Return tt, fresh demo_course 0)
  /\ self (snd (run_calls [Activity PNone PNone PNone DF_JSON; Problems DF_CSV;
                           RecentActivity (PStr "any") DF_JSON]
                  (fresh demo_course 0)))
     = demo_course.
Proof.
  split; [reflexivity|].
  destruct (instance_unchanged echo_client "edX/DemoX/Demo_Course"
              [Activity PNone PNone PNone DF_JSON; Problems DF_CSV;
               RecentActivity (PStr "any") DF_JSON]
              (Problems DF_JSON) (fresh lost_course 0) (fresh demo_course 0) eq_refl)
    as (Hcl & Hid & _ & _).
  destruct (self (snd (run_calls _ (fresh demo_course 0)))) as [cl cid].
  cbn [client course_id] in Hcl, Hid. now rewrite Hcl, Hid.
Defined.

(** C10 at an activity type with an ampersand. *)
Lemma activity_type_quoting_witness :
  "a&b" <> ""
  /\ activity (PStr "a&b") PNone PNone DF_JSON (fresh demo_course 0)
     = client_get "courses/edX/DemoX/Demo_Course/activity/?activity_type=a%26b"
         DF_JSON (fresh demo_course 0).
Proof.
  assert (H : "a&b" <> "") by discriminate.
  split; [exact H|].
  exact (proj1 (activity_type_quoting "a&b" DF_JSON (fresh demo_course 0) H)).
Defined.

(** C5 fails as stated.  A course key holds a colon and plus signs; URL
    encoding would write them [%3A] and [%2B], and [problems] sends them
    as they are. *)
Lemma course_key_not_url_encoded :
  __init__ echo_client "course-v1:edX+DemoX+Demo_Course" (fresh demo_course 0)
  = (Return tt, fresh keyed_course 0)
  /\ quote "course-v1:edX+DemoX+Demo_Course" "/"
     = "course-v1%3AedX%2BDemoX%2BDemo_Course"
  /\ requests (Problems DF_JSON) (fresh keyed_course 0)
     = [("courses/course-v1:edX+DemoX+Demo_Course/problems/", DF_JSON)]
  /\ ~ sends_with_segment (quote (course_id keyed_course) "/") (Problems DF_JSON)
         (fresh keyed_course 0).
Proof.
  split; [|split; [|split]]; try (vm_compute; reflexivity).
  unfold sends_with_segment. vm_compute. discriminate.
Qed.

(** C10 fails as stated.  The tilde is an unreserved character, and
    [activity] escapes it where [recent_activity] does not. *)
Lemma tilde_escaped_by_activity_only :
  all_in rfc3986_unreserved "~" = true
  /\ activity_type_fragment
       (requests (Activity (PStr "~") PNone PNone DF_JSON) (fresh demo_course 0))
     = Some "activity_type=%7E"
  /\ activity_type_fragment
       (requests (RecentActivity (PStr "~") DF_JSON) (fresh demo_course 0))
     = Some "activity_type=~"
  /\ activity_type_fragment
       (requests (Activity (PStr "~") PNone PNone DF_JSON) (fresh demo_course 0))
     <> activity_type_fragment
          (requests (RecentActivity (PStr "~") DF_JSON) (fresh demo_course 0)).
Proof.
  split; [|split; [|split]]; try (vm_compute; reflexivity).
  vm_compute. discriminate.
Qed.

(** C6 fails as stated.  An activity type that holds an ampersand brings
    its own parameters: with [any&start_date=2014-01-01] the request of
    [recent_activity] carries a [start_date] parameter. *)
Lemma recent_activity_start_date_appears :
  requests (RecentActivity (PStr "any&start_date=2014-01-01") DF_JSON)
    (fresh demo_course 0)
  = [("courses/edX/DemoX/Demo_Course/recent_activity/?activity_type=any&start_date=2014-01-01",
      DF_JSON)]
  /\ parse_qsl
       (query_of
          "courses/edX/DemoX/Demo_Course/recent_activity/?activity_type=any&start_date=2014-01-01")
     = [("activity_type", "any"); ("start_date", "2014-01-01")]
  /\ In "start_date"
       (map fst
          (parse_qsl
             (query_of
                "courses/edX/DemoX/Demo_Course/recent_activity/?activity_type=any&start_date=2014-01-01"))).
Proof.
  split; [|split]; try (vm_compute; reflexivity).
  vm_compute. right. left. reflexivity.
Qed.

End Runs.

(* ------------------------------------------------------------------ *)
(** ** The cases of [tests/test_course.py], run on the model

    The tests register the URLs they expect with an HTTP mock; here the
    request each call sends is computed.  In the query string of
    [activity] the fields stand in the order of the dict: the dates, then
    [activity_type]. *)

Module Tests.
Import Py Urllib Urlencode Urlparse Course Demo.

Example test_enrollment :
  sent (Enrollment PNone PNone PNone DF_JSON)
  = ["courses/edX/DemoX/Demo_Course/enrollment/"]
  /\ sent (Enrollment PNone date PNone DF_JSON)
     = ["courses/edX/DemoX/Demo_Course/enrollment/?start_date=2014-01-01"]
  /\ sent (Enrollment PNone PNone date DF_JSON)
     = ["courses/edX/DemoX/Demo_Course/enrollment/?end_date=2014-01-01"]
  /\ sent (Enrollment PNone date date DF_JSON)
     = ["courses/edX/DemoX/Demo_Course/enrollment/?start_date=2014-01-01&end_date=2014-01-01"].
Proof. repeat split; vm_compute; reflexivity. Qed.

Example test_enrollment_demographic :
  sent (Enrollment (PStr "gender") PNone PNone DF_JSON)
  = ["courses/edX/DemoX/Demo_Course/enrollment/gender/"]
  /\ sent (Enrollment (PStr "gender") date date DF_JSON)
     = ["courses/edX/DemoX/Demo_Course/enrollment/gender/?start_date=2014-01-01&end_date=2014-01-01"].
Proof. repeat split; vm_compute; reflexivity. Qed.

Example test_activity :
  fst (invoke (Activity PNone PNone PNone DF_JSON) (fresh demo_course 0))
  = Raise (InvalidRequestError "activity_type cannot be None.")
  /\ sent (Activity PNone PNone PNone DF_JSON) = []
  /\ sent (Activity (PStr "any") PNone PNone DF_JSON)
     = ["courses/edX/DemoX/Demo_Course/activity/?activity_type=any"]
  /\ sent (Activity (PStr "any") date PNone DF_JSON)
     = ["courses/edX/DemoX/Demo_Course/activity/?start_date=2014-01-01&activity_type=any"]
  /\ sent (Activity (PStr "any") PNone date DF_JSON)
     = ["courses/edX/DemoX/Demo_Course/activity/?end_date=2014-01-01&activity_type=any"]
  /\ sent (Activity (PStr "any") date date DF_JSON)
     = ["courses/edX/DemoX/Demo_Course/activity/?start_date=2014-01-01&end_date=2014-01-01&activity_type=any"].
Proof. repeat split; vm_compute; reflexivity. Qed.

Example test_recent_activity :
  invoke (RecentActivity (PStr "played_video") DF_JSON) (fresh demo_course 0)
  = (Return "courses/edX/DemoX/Demo_Course/recent_activity/?activity_type=played_video",
     {| self := demo_course;
        client_state := 1;
        get_calls :=
          [("courses/edX/DemoX/Demo_Course/recent_activity/?activity_type=played_video",
            DF_JSON)];
        warnings_log :=
          [("recent_activity has been deprecated! Use activity instead.",
            "DeprecationWarning")] |}).
Proof. vm_compute. reflexivity. Qed.

Example test_not_found :
  fst (invoke (RecentActivity (PStr "any") DF_JSON) (fresh lost_course 0))
  = Raise (Exn "NotFoundError"
             "courses/not-a-course-id/recent_activity/?activity_type=any")
  /\ fst (invoke (Enrollment (PStr "education") PNone PNone DF_JSON)
            (fresh lost_course 0))
     = Raise (Exn "NotFoundError" "courses/not-a-course-id/enrollment/education/").
Proof. split; vm_compute; reflexivity. Qed.

Example test_enrollment_data_format :
  requests (Enrollment PNone PNone PNone DF_CSV) (fresh demo_course 0)
  = [("courses/edX/DemoX/Demo_Course/enrollment/", DF_CSV)].
Proof. vm_compute. reflexivity. Qed.

Example test_problems :
  sent (Problems DF_JSON) = ["courses/edX/DemoX/Demo_Course/problems/"].
Proof. vm_compute. reflexivity. Qed.

Example test_videos :
  sent (Videos PNone PNone DF_JSON) = ["courses/edX/DemoX/Demo_Course/videos/"]
  /\ sent (VideoSettings DF_JSON)
     = ["courses/edX/DemoX/Demo_Course/videos/settings/"]
  /\ sent (VideoSummary (PStr "0fac49ba") date PNone DF_JSON)
     = ["courses/edX/DemoX/Demo_Course/videos/0fac49ba/summary/?start_date=2014-01-01"]
  /\ sent (VideoSeekTimes (PStr "0fac49ba") PNone date DF_JSON)
     = ["courses/edX/DemoX/Demo_Course/videos/0fac49ba/seek_times/?end_date=2014-01-01"]
  /\ sent (OnCampusData date date DF_JSON)
     = ["courses/edX/DemoX/Demo_Course/on_campus_student_data/?start_date=2014-01-01&end_date=2014-01-01"].
Proof. repeat split; vm_compute; reflexivity. Qed.

(** A date with a space and an activity type with a slash are quoted. *)
Example test_quoting :
  sent (Activity (PStr "posted/forum") (PStr "2014 01") PNone DF_JSON)
  = ["courses/edX/DemoX/Demo_Course/activity/?start_date=2014+01&activity_type=posted%2Fforum"]
  /\ parse_qsl "start_date=2014+01&activity_type=posted%2Fforum"
     = [("start_date", "2014 01"); ("activity_type", "posted/forum")].
Proof. split; vm_compute; reflexivity. Qed.

End Tests.

(* ------------------------------------------------------------------ *)
(** ** More of the behaviour of [Course] *)

Module Coverage.
Import Py Urllib Urlencode Urlparse Surface Course Calls StringFacts CourseFacts.

Lemma date_params_truthy (s e : pyval) :
  Forall (fun kv => truthy (snd kv) = true) (date_params s e).
Proof.
  unfold date_params.
  destruct (truthy s) eqn:Hs, (truthy e) eqn:He; repeat constructor; assumption.
Qed.

Lemma truthy_text (v : pyval) : truthy v = true -> nonempty (str v) = true.
Proof. destruct v as [|[|c r]]; [discriminate | discriminate | reflexivity]. Qed.

Lemma date_params_nonempty (s e : pyval) :
  Forall (fun kv => nonempty (str (snd kv)) = true) (date_params s e).
Proof.
  eapply Forall_impl; [|apply date_params_truthy].
  intros kv. apply truthy_text.
Qed.

Lemma urlencode_items_nonempty (kv : string * pyval) (r : list (string * pyval)) :
  nonempty (urlencode_items (kv :: r)) = true.
Proof.
  assert (H : nonempty (encoded_item kv) = true).
  { unfold encoded_item. destruct (quote_plus (fst kv)); reflexivity. }
  destruct r as [|kv' r'].
  - exact H.
  - rewrite urlencode_items_cons. now apply nonempty_app_l.
Qed.

(** The query string of the optional dates: empty when none is supplied, a
    question mark and fields that read back as the supplied dates
    otherwise. *)
Lemma dates_query_reads_back (s e : pyval) :
  match supplied_dates s e with
  | [] => dates_query s e = ""
  | _ :: _ =>
      exists t, dates_query s e = "?" ++ t /\ parse_qsl t = supplied_dates s e
  end.
Proof.
  unfold supplied_dates. rewrite <- urlencode_dates.
  pose proof (parse_qsl_urlencode_items _ (date_params_nonempty s e)) as P.
  destruct (date_params s e) as [|kv r]; [reflexivity|].
  rewrite urlencode_items_nonempty. cbn [map].
  exists (urlencode_items (kv :: r)). split; [reflexivity | exact P].
Qed.

Section WithClient.
Context {Resp ClientState : Type}.

(** X1.  [video_summary], [videos], [video_seek_times] and
    [on_campus_data] build their query string as [enrollment] does: for
    the same dates the five methods append the same text to their base
    path, which is empty when no date is supplied and otherwise a question
    mark followed by fields that read back as exactly the supplied dates,
    [start_date] first.  [video_id] is written into the path as it is. *)
Theorem dated_methods_query (video_id start_date end_date : pyval)
    (data_format : DataFormat) (w : world Resp ClientState) :
  let cid := course_id (self w) in
  exists query,
    match supplied_dates start_date end_date with
    | [] => query = ""
    | _ :: _ =>
        exists t, query = "?" ++ t
                  /\ parse_qsl t = supplied_dates start_date end_date
    end
    /\ video_summary video_id start_date end_date data_format w
       = client_get ("courses/" ++ cid ++ "/videos/" ++ str video_id
                     ++ "/summary/" ++ query) data_format w
    /\ videos start_date end_date data_format w
       = client_get ("courses/" ++ cid ++ "/videos/" ++ query) data_format w
    /\ video_seek_times video_id start_date end_date data_format w
       = client_get ("courses/" ++ cid ++ "/videos/" ++ str video_id
                     ++ "/seek_times/" ++ query) data_format w
    /\ on_campus_data start_date end_date data_format w
       = client_get ("courses/" ++ cid ++ "/on_campus_student_data/" ++ query)
           data_format w
    /\ enrollment PNone start_date end_date data_format w
       = client_get ("courses/" ++ cid ++ "/enrollment/" ++ query) data_format w.
Proof.
  intros cid. exists (dates_query start_date end_date).
  split; [apply dates_query_reads_back|].
  split; [apply video_summary_sends|].
  split; [apply videos_sends|].
  split; [apply video_seek_times_sends|].
  split; [apply on_campus_data_sends|].
  apply (enrollment_sends PNone).
Qed.

Lemma truthy_or_none (v : pyval) : truthy (or_none v) = truthy v.
Proof. destruct v as [|[|c r]]; reflexivity. Qed.

Lemma or_none_truthy (v : pyval) : truthy v = true -> or_none v = v.
Proof. unfold or_none. now intros ->. Qed.

Lemma dates_query_or_none (s e : pyval) :
  dates_query (or_none s) (or_none e) = dates_query s e.
Proof.
  unfold dates_query. rewrite !truthy_or_none.
  destruct (truthy s) eqn:Hs, (truthy e) eqn:He;
    rewrite ?(or_none_truthy s Hs), ?(or_none_truthy e He); reflexivity.
Qed.

Lemma activity_query_or_none (t s e : pyval) :
  activity_query t (or_none s) (or_none e) = activity_query t s e.
Proof.
  unfold activity_query. rewrite !truthy_or_none.
  destruct (truthy s) eqn:Hs, (truthy e) eqn:He;
    rewrite ?(or_none_truthy s Hs), ?(or_none_truthy e He); reflexivity.
Qed.

Lemma sent_path_normalize (segment : string) (c : call) :
  sent_path segment (normalize c) = sent_path segment c.
Proof.
  destruct c as [d s e f|t s e f|t f|f|f|v s e f|s e f|v s e f|s e f];
    cbn [normalize sent_path];
    rewrite ?dates_query_or_none, ?activity_query_or_none; try reflexivity.
  rewrite truthy_or_none.
  destruct (truthy d) eqn:Hd; [now rewrite (or_none_truthy d Hd) | reflexivity].
Qed.

(** X2.  A false optional argument counts as an absent one: a call with
    the empty string for [demographic], [start_date] or [end_date] does
    what the same call with [None] there does, in every state and down to
    the request sent, the outcome and the state left. *)
Theorem false_optional_arguments_are_absent (c : call)
    (w : world Resp ClientState) :
  invoke (normalize c) w = invoke c w.
Proof.
  rewrite !invoke_sends, sent_path_normalize.
  destruct c; reflexivity.
Qed.

(** *** Sequences of calls *)

Lemma run_calls_cons (c : call) (r : list call) (w : world Resp ClientState) :
  run_calls (c :: r) w
  = (fst (invoke c w) :: fst (run_calls r (snd (invoke c w))),
     snd (run_calls r (snd (invoke c w)))).
Proof.
  cbn [run_calls]. destruct (invoke c w) as [o w1].
  cbn [fst snd]. now destruct (run_calls r w1).
Qed.

Lemma run_calls_app (a b : list call) (w : world Resp ClientState) :
  run_calls (a ++ b) w
  = ((fst (run_calls a w) ++ fst (run_calls b (snd (run_calls a w))))%list,
     snd (run_calls b (snd (run_calls a w)))).
Proof.
  revert w. induction a as [|c r IH]; intros w.
  - cbn [app run_calls fst snd]. now destruct (run_calls b w).
  - cbn [app]. rewrite !run_calls_cons, IH. reflexivity.
Qed.

Lemma client_get_warnings (p : string) (f : DataFormat)
    (w : world Resp ClientState) :
  warnings_log (snd (client_get p f w)) = warnings_log w.
Proof. unfold client_get. now destruct (get _ _ _ _). Qed.

Lemma client_get_state (p : string) (f : DataFormat)
    (w : world Resp ClientState) :
  client_state (snd (client_get p f w))
  = snd (get (client (self w)) p f (client_state w)).
Proof. unfold client_get. now destruct (get _ _ _ _). Qed.

Lemma invoke_warnings (c : call) (w : world Resp ClientState) :
  warnings_log (snd (invoke c w))
  = (warnings_log w
     ++ if is_recent_activity c then [deprecation_notice] else [])%list.
Proof.
  rewrite invoke_sends.
  destruct (sent_path (course_id (self w)) c) as [p|] eqn:E.
  - rewrite client_get_warnings.
    destruct c; cbn [warned is_recent_activity warnings_log];
      rewrite ?app_nil_r; reflexivity.
  - destruct c; try discriminate E. cbn [snd is_recent_activity].
    now rewrite app_nil_r.
Qed.

(** X3.  Only [recent_activity] warns, and it warns once per call, before
    its request and whether or not the request succeeds: after any
    sequence of calls the warnings issued are one deprecation notice for
    each [recent_activity] call in it, and nothing else. *)
Theorem warnings_accounting (cs : list call) (w : world Resp ClientState) :
  warnings_log (snd (run_calls cs w))
  = (warnings_log w
     ++ repeat deprecation_notice (List.length (filter is_recent_activity cs)))%list.
Proof.
  revert w. induction cs as [|c r IH]; intros w.
  - cbn. now rewrite app_nil_r.
  - rewrite run_calls_cons. cbn [snd filter].
    rewrite IH, invoke_warnings, <- app_assoc.
    destruct (is_recent_activity c); reflexivity.
Qed.

Lemma requests_length (c : call) (w : world Resp ClientState) :
  List.length (requests c w) = if rejected c then 0 else 1.
Proof.
  rewrite (requests_sends c w).
  destruct c as [d s e f|t s e f|t f|f|f|v s e f|s e f|v s e f|s e f];
    cbn [sent_path rejected]; try reflexivity.
  now destruct (truthy t).
Qed.

Lemma invoke_get_calls (c : call) (w : world Resp ClientState) :
  get_calls (snd (invoke c w)) = (get_calls w ++ requests c w)%list.
Proof.
  rewrite (requests_sends c w), invoke_sends.
  destruct (sent_path (course_id (self w)) c) as [p|].
  - now rewrite client_get_calls, warned_get_calls.
  - cbn [snd]. now rewrite app_nil_r.
Qed.

Lemma invoke_client_state (c : call) (w : world Resp ClientState) :
  client_state (snd (invoke c w))
  = serve (client (self w)) (requests c w) (client_state w).
Proof.
  rewrite (requests_sends c w), invoke_sends.
  destruct (sent_path (course_id (self w)) c) as [p|]; [|reflexivity].
  rewrite client_get_state, warned_self, warned_client_state. reflexivity.
Qed.

Lemma flat_map_requests (cs : list call) (w w' : world Resp ClientState) :
  self w' = self w ->
  flat_map (fun c => requests c w') cs = flat_map (fun c => requests c w) cs.
Proof.
  intros H. induction cs as [|c r IH]; [reflexivity|].
  cbn [flat_map]. now rewrite IH, (requests_same_self c w w' H).
Qed.

Lemma flat_map_requests_length (cs : list call) (w : world Resp ClientState) :
  List.length (flat_map (fun c => requests c w) cs)
  = List.length (filter (fun c => negb (rejected c)) cs).
Proof.
  induction cs as [|c r IH]; [reflexivity|].
  cbn [flat_map filter]. rewrite List.length_app, IH, requests_length.
  destruct (rejected c); reflexivity.
Qed.

(** X4.  A sequence of calls on one instance drives the collaborator by
    exactly the requests the calls would each send on their own, in call
    order: [client.get] is called once for every call that is not a
    refused [activity] call and never otherwise, the collaborator's state
    is the one those requests leave, and every call has its outcome. *)
Theorem requests_accounting (cs : list call) (w : world Resp ClientState) :
  let sent := flat_map (fun c => requests c w) cs in
  get_calls (snd (run_calls cs w)) = (get_calls w ++ sent)%list
  /\ List.length sent = List.length (filter (fun c => negb (rejected c)) cs)
  /\ client_state (snd (run_calls cs w))
     = serve (client (self w)) sent (client_state w)
  /\ List.length (fst (run_calls cs w)) = List.length cs.
Proof.
  intros sent. subst sent.
  split; [|split; [apply flat_map_requests_length|split]].
  - revert w. induction cs as [|c r IH]; intros w.
    + cbn. now rewrite app_nil_r.
    + rewrite run_calls_cons. cbn [snd flat_map].
      rewrite IH, invoke_get_calls, <- app_assoc.
      now rewrite (flat_map_requests r w _ (invoke_self c w)).
  - revert w. induction cs as [|c r IH]; intros w.
    + reflexivity.
    + rewrite run_calls_cons. cbn [snd flat_map].
      rewrite IH, invoke_client_state, invoke_self.
      rewrite (flat_map_requests r w _ (invoke_self c w)).
      unfold serve. now rewrite fold_left_app.
  - revert w. induction cs as [|c r IH]; intros w; [reflexivity|].
    rewrite run_calls_cons. cbn [fst List.length]. now rewrite IH.
Qed.

(** X5.  A refused [activity] call leaves no trace: taken out of a
    sequence of calls it changes neither the final state nor the outcome
    of any other call; its own outcome is the [InvalidRequestError]. *)
Theorem refused_call_leaves_no_trace (before after : list call)
    (activity_type start_date end_date : pyval) (data_format : DataFormat)
    (w : world Resp ClientState) :
  truthy activity_type = false ->
  let refused := Activity activity_type start_date end_date data_format in
  let w1 := snd (run_calls before w) in
  snd (run_calls (before ++ refused :: after) w)
  = snd (run_calls (before ++ after) w)
  /\ fst (run_calls (before ++ refused :: after) w)
     = (fst (run_calls before w)
        ++ Raise (InvalidRequestError "activity_type cannot be None.")
           :: fst (run_calls after w1))%list
  /\ fst (run_calls (before ++ after) w)
     = (fst (run_calls before w) ++ fst (run_calls after w1))%list.
Proof.
  intros Ht refused w1. subst refused w1.
  rewrite !run_calls_app, run_calls_cons. cbn [invoke fst snd].
  rewrite (activity_rejects _ _ _ _ _ Ht). cbn [fst snd]. auto.
Qed.

(** *** What a request tells about the call *)

Lemma dates_query_supplied (s e s' e' : pyval) :
  dates_query s e = dates_query s' e'
  <-> supplied_dates s e = supplied_dates s' e'.
Proof.
  split.
  - intros H.
    pose proof (dates_query_reads_back s e) as R.
    pose proof (dates_query_reads_back s' e') as R'.
    rewrite <- H in R'.
    destruct (supplied_dates s e) as [|x r], (supplied_dates s' e') as [|x' r'].
    + reflexivity.
    + destruct R' as (t & Ht & _). rewrite R in Ht. discriminate Ht.
    + destruct R as (t & Ht & _). rewrite R' in Ht. discriminate Ht.
    + destruct R as (t & Ht & P), R' as (t' & Ht' & P').
      rewrite Ht in Ht'. injection Ht' as <-. now rewrite <- P, <- P'.
  - unfold supplied_dates, date_params, dates_query, field.
    destruct (truthy s), (truthy e), (truthy s'), (truthy e');
      cbn [app map fst snd]; intros H; try discriminate H;
      try (injection H; intros); congruence.
Qed.

Lemma same_request (base : string) (s e s' e' : pyval) (f f' : DataFormat) :
  [(base ++ dates_query s e, f)] = [(base ++ dates_query s' e', f')]
  <-> f = f' /\ supplied_dates s e = supplied_dates s' e'.
Proof.
  rewrite <- dates_query_supplied. split.
  - intros H. injection H as H1 H2. split; [exact H2|].
    now apply CourseSpec.append_inj_l in H1.
  - now intros [-> ->].
Qed.

(** X6.  The request of a method with optional dates tells exactly which
    dates were supplied and with what text: two calls of the same method
    that agree on [demographic] or [video_id] send the same request if and
    only if they ask for the same data format and supply the same dates
    (a false date counting as none). *)
Theorem request_identifies_dates (demographic video_id : pyval)
    (start_date end_date start_date' end_date' : pyval)
    (data_format data_format' : DataFormat) (w : world Resp ClientState) :
  let same_call :=
    data_format = data_format'
    /\ supplied_dates start_date end_date = supplied_dates start_date' end_date' in
  (requests (Enrollment demographic start_date end_date data_format) w
   = requests (Enrollment demographic start_date' end_date' data_format') w
   <-> same_call)
  /\ (requests (VideoSummary video_id start_date end_date data_format) w
      = requests (VideoSummary video_id start_date' end_date' data_format') w
      <-> same_call)
  /\ (requests (Videos start_date end_date data_format) w
      = requests (Videos start_date' end_date' data_format') w
      <-> same_call)
  /\ (requests (VideoSeekTimes video_id start_date end_date data_format) w
      = requests (VideoSeekTimes video_id start_date' end_date' data_format') w
      <-> same_call)
  /\ (requests (OnCampusData start_date end_date data_format) w
      = requests (OnCampusData start_date' end_date' data_format') w
      <-> same_call).
Proof.
  intros same_call. subst same_call.
  repeat match goal with
         | |- _ /\ _ => split
         end;
    rewrite !(requests_sends _ w); cbn [sent_path call_data_format];
    rewrite <- ?append_assoc; apply same_request.
Qed.

Lemma sent_path_endpoint (segment : string) (c : call) (p : string) :
  sent_path segment c = Some p ->
  exists rest,
    p = "courses/" ++ segment ++ "/" ++ endpoint_name (endpoint_of c) ++ rest.
Proof.
  destruct c as [d s e f|t s e f|t f|f|f|v s e f|s e f|v s e f|s e f];
    cbn [sent_path endpoint_of endpoint_name]; try destruct (truthy t);
    intros H; try discriminate H; injection H as <-; eexists; reflexivity.
Qed.

(** X7.  On one instance, calls of different endpoints never send the same
    path, whatever their arguments: after [courses/], the course id and a
    slash, the path names the endpoint ([enrollment/], [activity/],
    [recent_activity/], [problems/], [videos/] for the four video methods,
    [on_campus_student_data/]). *)
Theorem endpoints_do_not_collide (c1 c2 : call) (p1 p2 : string)
    (f1 f2 : DataFormat) (w : world Resp ClientState) :
  endpoint_of c1 <> endpoint_of c2 ->
  In (p1, f1) (requests c1 w) ->
  In (p2, f2) (requests c2 w) ->
  (exists rest,
     p1 = "courses/" ++ course_id (self w) ++ "/"
          ++ endpoint_name (endpoint_of c1) ++ rest)
  /\ p1 <> p2.
Proof.
  intros Hne H1 H2.
  rewrite (requests_sends c1 w) in H1. rewrite (requests_sends c2 w) in H2.
  destruct (sent_path (course_id (self w)) c1) as [q1|] eqn:E1; [|contradiction].
  destruct (sent_path (course_id (self w)) c2) as [q2|] eqn:E2; [|contradiction].
  destruct H1 as [H1|[]]. destruct H2 as [H2|[]].
  injection H1 as <- _. injection H2 as <- _.
  destruct (sent_path_endpoint _ _ _ E1) as (r1 & ->).
  destruct (sent_path_endpoint _ _ _ E2) as (r2 & ->).
  split; [now exists r1|].
  intros H. do 3 apply CourseSpec.append_inj_l in H.
  destruct (endpoint_of c1), (endpoint_of c2);
    first [ now contradiction Hne | discriminate H ].
Qed.

(** *** Text that reaches the path unquoted *)

(** X8.  [recent_activity] lets its argument add parameters to the
    request, where [activity] does not: when the activity type given is a
    quoted value followed by [&] and further encoded fields, the query
    string of [recent_activity] reads back as [activity_type] with that
    value and then those fields, while the query string of [activity]
    reads back as the single parameter [activity_type] holding the whole
    argument. *)
Theorem recent_activity_forwards_fields (value : string)
    (item : string * pyval) (items : list (string * pyval))
    (data_format : DataFormat) (w : world Resp ClientState) :
  nonempty value = true ->
  Forall (fun kv => nonempty (str (snd kv)) = true) (item :: items) ->
  let argument := quote_plus value ++ "&" ++ urlencode_items (item :: items) in
  let cid := course_id (self w) in
  (exists query,
     requests (RecentActivity (PStr argument) data_format) w
     = [("courses/" ++ cid ++ "/recent_activity/?" ++ query, data_format)]
     /\ parse_qsl query
        = ("activity_type", value)
          :: map (fun kv => (fst kv, str (snd kv))) (item :: items))
  /\ (exists query,
       requests (Activity (PStr argument) PNone PNone data_format) w
       = [("courses/" ++ cid ++ "/activity/?" ++ query, data_format)]
       /\ parse_qsl query = [("activity_type", argument)]).
Proof.
  intros Hv Hitems argument cid. subst cid. split.
  - exists (urlencode_items (("activity_type", PStr value) :: item :: items)).
    split.
    + rewrite (requests_sends _ w). cbn [sent_path call_data_format str].
      rewrite urlencode_items_cons, encoded_activity_type.
      subst argument. unfold field. cbn [str].
      rewrite ?append_assoc. cbn [append]. reflexivity.
    + rewrite parse_qsl_urlencode_items; [reflexivity|].
      constructor; [exact Hv | exact Hitems].
  - assert (Ht : truthy (PStr argument) = true).
    { subst argument. pose proof (quote_plus_nonempty value Hv) as N.
      destruct (quote_plus value); [discriminate N | reflexivity]. }
    exists (field "activity_type" (PStr argument)). split.
    + rewrite (requests_sends _ w). cbn [sent_path call_data_format].
      rewrite Ht. unfold activity_query. cbn [truthy].
      rewrite ?append_assoc. cbn [append]. reflexivity.
    + apply (CourseSpec.parse_qsl_fields [("activity_type", PStr argument)]).
      * constructor; [apply quote_plus_safe; reflexivity | constructor].
      * constructor; [exact Ht | constructor].
Qed.

(** *** The characters of a query string *)

Lemma all_in_app (chars a b : string) :
  all_in chars (a ++ b) = all_in chars a && all_in chars b.
Proof.
  induction a as [|c r IH]; cbn [append all_in]; [reflexivity|].
  now rewrite IH, andb_assoc.
Qed.

Lemma plus_quoter_alphabet (c : ascii) :
  all_in query_alphabet (plus_quoter c) = true.
Proof. destruct c as [[] [] [] [] [] [] [] []]; vm_compute; reflexivity. Qed.

Lemma quote_plus_alphabet (s : string) :
  all_in query_alphabet (quote_plus s) = true.
Proof.
  rewrite quote_plus_join_map.
  induction s as [|c r IH]; cbn [join_map]; [reflexivity|].
  now rewrite all_in_app, plus_quoter_alphabet, IH.
Qed.

Lemma field_alphabet (k : string) (v : pyval) :
  all_in query_alphabet k = true -> all_in query_alphabet (field k v) = true.
Proof.
  intros H. unfold field.
  now rewrite !all_in_app, H, quote_plus_alphabet.
Qed.

Lemma dates_query_alphabet (s e : pyval) :
  all_in query_alphabet (dates_query s e) = true.
Proof.
  unfold dates_query.
  destruct (truthy s), (truthy e);
    rewrite ?all_in_app, ?field_alphabet by reflexivity; reflexivity.
Qed.

Lemma activity_query_alphabet (t s e : pyval) :
  all_in query_alphabet (activity_query t s e) = true.
Proof.
  unfold activity_query.
  destruct (truthy s), (truthy e);
    rewrite ?all_in_app, ?field_alphabet by reflexivity; reflexivity.
Qed.

(** X10.  Apart from [recent_activity], every method sends a path that is
    its base path (the course, the endpoint and the [demographic] or
    [video_id] as given) followed by a query string made only of letters,
    digits, [_.-] and [%+=&?]: no date and no activity type of [activity]
    can put a space, a slash, a [#] or a byte above 127 into the
    request. *)
Theorem query_strings_are_quoted (c : call) (p : string) (f : DataFormat)
    (w : world Resp ClientState) :
  is_recent_activity c = false ->
  In (p, f) (requests c w) ->
  exists query,
    p = base_path (course_id (self w)) c ++ query
    /\ all_in query_alphabet query = true.
Proof.
  intros Hc H. rewrite (requests_sends c w) in H.
  destruct (sent_path (course_id (self w)) c) as [q|] eqn:E; [|contradiction].
  destruct H as [H|[]]. injection H as <- _.
  destruct c as [d s e g|t s e g|t g|g|g|v s e g|s e g|v s e g|s e g];
    cbn [sent_path base_path] in *; try discriminate Hc.
  - injection E as <-. exists (dates_query s e).
    split; [now rewrite !append_assoc | apply dates_query_alphabet].
  - destruct (truthy t); [|discriminate E]. injection E as <-.
    exists ("?" ++ activity_query t s e).
    split; [now rewrite !append_assoc|].
    cbn [append all_in]. now rewrite activity_query_alphabet.
  - injection E as <-. exists "". split; [now rewrite !append_nil_r | reflexivity].
  - injection E as <-. exists "". split; [now rewrite !append_nil_r | reflexivity].
  - injection E as <-. exists (dates_query s e).
    split; [now rewrite !append_assoc | apply dates_query_alphabet].
  - injection E as <-. exists (dates_query s e).
    split; [now rewrite !append_assoc | apply dates_query_alphabet].
  - injection E as <-. exists (dates_query s e).
    split; [now rewrite !append_assoc | apply dates_query_alphabet].
  - injection E as <-. exists (dates_query s e).
    split; [now rewrite !append_assoc | apply dates_query_alphabet].
Qed.

(** *** Construction *)

(** X9.  Constructing a [Course] sends no request and warns of nothing.
    It stores [client] first and then [course_id]: with a [course_id] of
    ASCII characters both attributes hold what was passed; with a byte
    above 127 in it the conversion to [unicode] raises
    [UnicodeDecodeError], [client] is already stored and [course_id] is
    not assigned. *)
Theorem construction (cl : Client Resp ClientState) (cid : string)
    (w : world Resp ClientState) :
  let built := snd (__init__ cl cid w) in
  get_calls built = get_calls w
  /\ client_state built = client_state w
  /\ warnings_log built = warnings_log w
  /\ client (self built) = cl
  /\ (if is_ascii cid
      then fst (__init__ cl cid w) = Return tt /\ course_id (self built) = cid
      else fst (__init__ cl cid w)
           = Raise (UnicodeDecodeError "'ascii' codec can't decode byte")
           /\ course_id (self built) = course_id (self w)).
Proof.
  unfold __init__, bind, set_client, set_course_id, lift, unicode.
  destruct (is_ascii cid); cbn [fst snd self client course_id get_calls
                                client_state warnings_log];
    repeat split; reflexivity.
Qed.

End WithClient.

End Coverage.

(* ------------------------------------------------------------------ *)
(** ** Runs of the further properties *)

Module CoverageRuns.
Import Py Urllib Urlencode Urlparse Surface Course Calls Demo Coverage.

(** X5 between [problems()] and [videos()] on the demo course. *)
Lemma refused_call_leaves_no_trace_witness :
  truthy (PStr "") = false
  /\ snd (run_calls [Problems DF_JSON; Activity (PStr "") date PNone DF_CSV;
                     Videos PNone PNone DF_JSON] (fresh demo_course 0))
     = snd (run_calls [Problems DF_JSON; Videos PNone PNone DF_JSON]
              (fresh demo_course 0)).
Proof.
  split; [reflexivity|].
  exact (proj1 (refused_call_leaves_no_trace [Problems DF_JSON]
                  [Videos PNone PNone DF_JSON] (PStr "") date PNone DF_CSV
                  (fresh demo_course 0) eq_refl)).
Defined.

(** X7 at [problems()] and [videos()]. *)
Lemma endpoints_do_not_collide_witness :
  endpoint_of (Problems DF_JSON) <> endpoint_of (Videos PNone PNone DF_JSON)
  /\ "courses/edX/DemoX/Demo_Course/problems/"
     <> "courses/edX/DemoX/Demo_Course/videos/".
Proof.
  assert (H : endpoint_of (Problems DF_JSON)
              <> endpoint_of (Videos PNone PNone DF_JSON))
    by (intros E; discriminate E).
  split; [exact H|].
  exact (proj2 (endpoints_do_not_collide (Problems DF_JSON)
                  (Videos PNone PNone DF_JSON)
                  "courses/edX/DemoX/Demo_Course/problems/"
                  "courses/edX/DemoX/Demo_Course/videos/"
                  DF_JSON DF_JSON (fresh demo_course 0) H
                  (or_introl eq_refl) (or_introl eq_refl))).
Defined.

(** X8 at the activity type [any&start_date=2014-01-01]. *)
Lemma recent_activity_forwards_fields_witness :
  nonempty "any" = true
  /\ Forall (fun kv : string * pyval => nonempty (str (snd kv)) = true)
       [("start_date", date)]
  /\ exists query,
       requests (RecentActivity (PStr "any&start_date=2014-01-01") DF_JSON)
         (fresh demo_course 0)
       = [("courses/edX/DemoX/Demo_Course/recent_activity/?" ++ query, DF_JSON)]
       /\ parse_qsl query
          = [("activity_type", "any"); ("start_date", "2014-01-01")].
Proof.
  assert (H : Forall (fun kv : string * pyval => nonempty (str (snd kv)) = true)
                [("start_date", date)])
    by (constructor; [reflexivity | constructor]).
  split; [reflexivity|]. split; [exact H|].
  exact (proj1 (recent_activity_forwards_fields "any" ("start_date", date) []
                  DF_JSON (fresh demo_course 0) eq_refl H)).
Defined.

(** X10 at [videos(start_date='2014 01')]: the space is sent as a plus
    sign. *)
Lemma query_strings_are_quoted_witness :
  is_recent_activity (Videos (PStr "2014 01") PNone DF_JSON) = false
  /\ In ("courses/edX/DemoX/Demo_Course/videos/?start_date=2014+01", DF_JSON)
       (requests (Videos (PStr "2014 01") PNone DF_JSON) (fresh demo_course 0))
  /\ exists query,
       "courses/edX/DemoX/Demo_Course/videos/?start_date=2014+01"
       = "courses/edX/DemoX/Demo_Course/videos/" ++ query
       /\ all_in query_alphabet query = true.
Proof.
  assert (H : In ("courses/edX/DemoX/Demo_Course/videos/?start_date=2014+01",
                  DF_JSON)
                (requests (Videos (PStr "2014 01") PNone DF_JSON)
                   (fresh demo_course 0)))
    by (vm_compute; left; reflexivity).
  split; [reflexivity|]. split; [exact H|].
  exact (query_strings_are_quoted (Videos (PStr "2014 01") PNone DF_JSON) _ _
           (fresh demo_course 0) eq_refl H).
Defined.

End CoverageRuns.
